(** * dhSegment, cBAD experiment utilities: label-mask synthesis

    A shallow embedding of [exps/cbad/utils.py] and the properties of its
    class encoder, line-height statistics, mask rasterisation, dataset
    builder and train/eval split.

    Conventions of the embedding:
    - Python [int] is [Z]; Python [float] and [np.float64] are the kernel's
      binary64 floats ([PrimFloat.float]), so every arithmetic step rounds
      as IEEE 754 does and concrete runs evaluate to the values CPython and
      numpy print;
    - lists, tuples and numpy arrays are Rocq lists (a 2-D array is a list
      of rows, an image a list of rows of pixels, each pixel a list of
      channel values);
    - the filesystem is a finite map from paths to file contents, threaded
      through a state-and-exception monad together with the set of existing
      directories and the lines printed on standard output;
    - [cv2], [glob], [os.path.abspath] and pandas sampling are collaborators
      whose code is not part of the repository: they are the fields of the
      interfaces [Cv2], [Os] and [Pandas] below. *)

From Stdlib Require Import ZArith Floats Ascii.
From stdpp Require Import base option list strings gmap pretty sorting.

Set Warnings "-inexact-float".
Open Scope Z_scope.

(** ** Constant definitions (utils.py, lines 13-17) *)

Definition color : Type := Z * Z * Z.

Definition TARGET_HEIGHT : Z := 1100.
Definition DRAWING_COLOR_BASELINES : color := (255, 0, 0).
Definition DRAWING_COLOR_LINES : color := (0, 255, 0).
Definition DRAWING_COLOR_POINTS : color := (0, 0, 255).

(** * Python and numpy primitives *)

(** The exceptions that the modelled code can raise. *)
Inductive exn :=
| FileNotFoundError
| FileExistsError
| IndexError
| ZeroDivisionError
| ValueError
| OverflowError
| OSError.

#[global] Instance exn_eq_dec : EqDecision exn.
Proof. solve_decision. Defined.

Module Py.

(** [float(z)] for an integer that fits a machine word. *)
Definition float_of_Z (z : Z) : float :=
  match z with
  | Z0 => 0%float
  | Zpos _ => PrimFloat.of_uint63 (Uint63.of_Z z)
  | Zneg _ => PrimFloat.opp (PrimFloat.of_uint63 (Uint63.of_Z (- z)))
  end.

(** The integer part of m * 2^e. *)
Definition magnitude (m : positive) (e : Z) : Z :=
  if 0 <=? e then Z.pos m * 2 ^ e else Z.pos m / 2 ^ (- e).

(** [int(x)]: truncation toward zero; NaN raises [ValueError] and an
    infinity [OverflowError]. *)
Definition int_of_float (x : float) : exn + Z :=
  match Prim2SF x with
  | S754_zero _ => inr 0
  | S754_finite s m e =>
      let mag := magnitude m e in
      inr (if s then - mag else mag)
  | S754_infinity _ => inl OverflowError
  | S754_nan => inl ValueError
  end.

(** [round(x)] with one argument: nearest integer, ties to even. *)
Definition round (x : float) : exn + Z :=
  match Prim2SF x with
  | S754_zero _ => inr 0
  | S754_finite s m e =>
      let mag :=
        if 0 <=? e then Z.pos m * 2 ^ e
        else
          let d := 2 ^ (- e) in
          let q := Z.pos m / d in
          let r := Z.pos m mod d in
          match Z.compare (2 * r) d with
          | Lt => q
          | Gt => q + 1
          | Eq => if Z.even q then q else q + 1
          end in
      inr (if s then - mag else mag)
  | S754_infinity _ => inl OverflowError
  | S754_nan => inl ValueError
  end.

(** The builtin [max(a, b)]: the first argument unless the second is
    greater. *)
Definition max (a b : float) : float :=
  if PrimFloat.ltb a b then b else a.

(** [np.array(a) + np.array(b)] on two color tuples, and [tuple(...)]. *)
Definition tuple_add (a b : color) : color :=
  let '(a0, a1, a2) := a in
  let '(b0, b1, b2) := b in
  (a0 + b0, a1 + b1, a2 + b2).

(** [np.argmax] of a color tuple: index of the first maximal entry. *)
Definition argmax (c : color) : nat :=
  let '(c0, c1, c2) := c in
  if (c1 <=? c0) && (c2 <=? c0) then 0%nat
  else if c2 <=? c1 then 1%nat else 2%nat.

(** A list of tuples seen as a 2-D integer array. *)
Definition array_of_tuples (l : list color) : list (list Z) :=
  (λ c : color, let '(c0, c1, c2) := c in [c0; c1; c2]) <$> l.

(** [np.greater(a, b)] on two 2-D arrays of the same shape. *)
Definition greater (a b : list (list Z)) : list (list bool) :=
  zip_with (zip_with Z.gtb) a b.

(** [.astype(int)] on a boolean array. *)
Definition astype_int (a : list (list bool)) : list (list Z) :=
  fmap (M := list) (fmap (M := list) (λ b : bool, if b then 1 else 0)) a.

(** [np.hstack((a, b))] on two 2-D arrays with the same number of rows. *)
Definition hstack (a b : list (list Z)) : list (list Z) :=
  zip_with app a b.

End Py.

(** numpy reductions on 1-D arrays.  An integer array is a [list Z], a
    float64 array a [list float]; an empty list also stands for the empty
    float64 array that [np.array([])] builds. *)
Module Np.

Definition square (x : float) : float := (x * x)%float.

(** [np.sum]: the entries added from left to right.  (numpy adds blocks
    of eight or more entries pairwise; on the integer-valued data of this
    module both orders add without rounding.) *)
Definition sum (a : list float) : float :=
  foldl PrimFloat.add 0%float a.

(** [np.mean] of a float64 array; the empty array gives NaN. *)
Definition mean (a : list float) : float :=
  (sum a / Py.float_of_Z (Z.of_nat (length a)))%float.

(** Integer arrays are reduced in float64. *)
Definition astype_float (a : list Z) : list float := Py.float_of_Z <$> a.

(** [np.std]: square root of the mean squared deviation from the mean. *)
Definition std (a : list float) : float :=
  let arrmean := mean a in
  PrimFloat.sqrt (mean ((λ x, square (x - arrmean)%float) <$> a)).

(** Sorting, as [np.median] needs it. *)
Fixpoint insert_sorted {A} (le : A → A → bool) (x : A) (l : list A) : list A :=
  match l with
  | [] => [x]
  | y :: l' => if le x y then x :: l else y :: insert_sorted le x l'
  end.

Definition sort {A} (le : A → A → bool) (l : list A) : list A :=
  foldr (insert_sorted le) [] l.

(** [np.median]: the middle entry of the sorted array when its length is
    odd, the mean of the two middle entries when it is even, NaN when it
    is empty. *)
Definition median (a : list float) : float :=
  let n := length a in
  let part := sort PrimFloat.leb a in
  if Nat.even n
  then mean (take 2 (drop (n / 2 - 1)%nat part))
  else mean (take 1 (drop (n / 2)%nat part)).

(** [np.median] of an integer array: sorted as integers, averaged in
    float64. *)
Definition median_int (a : list Z) : float :=
  let n := length a in
  let part := sort Z.leb a in
  if Nat.even n
  then mean (astype_float (take 2 (drop (n / 2 - 1)%nat part)))
  else mean (astype_float (take 1 (drop (n / 2)%nat part))).

(** [np.maximum(a, b)] on scalars: [a] when [a >= b] or [a] is NaN. *)
Definition maximum (a b : float) : float :=
  if PrimFloat.leb b a || PrimFloat.is_nan a then a else b.

(** [np.max(l) - np.min(l)] on a non-empty list of integers. *)
Definition max (l : list Z) : Z := foldr Z.max (default 0 (head l)) l.
Definition min (l : list Z) : Z := foldr Z.min (default 0 (head l)) l.

(** Boolean-mask indexing [a[~mask]]. *)
Definition select_not {A} (a : list A) (mask : list bool) : list A :=
  (filter (λ p : A * bool, negb p.2) (zip a mask)).*1.

End Np.

(** * The PAGE data model *)

(** Modelled from the spec: the classes of [dh_segment.io.PAGE] that
    [utils.py] imports ([Point], [TextLine], [TextRegion], [Page] and
    [Point.list_to_cv2poly]) are not among the sources.  The specification
    gives their shape: a document has regions, a region has lines, a line
    has an ordered baseline point list and an ordered outline point list of
    integer pixel coordinates. *)
Module PAGE.

Record Point := { x : Z; y : Z }.

Record TextLine := { baseline : list Point; coords : list Point }.

Record TextRegion := { text_lines : list TextLine }.

Record Page := { text_regions : list TextRegion }.

(** The list of points as the array of (x, y) pairs that cv2 draws. *)
Definition list_to_cv2poly (l : list Point) : list (Z * Z) :=
  (λ p, (x p, y p)) <$> l.

End PAGE.

(** * RobustStatistics *)

(** [_is_outlier(points, thresh=3.5)] (lines 300-332) on a 1-D array of
    integers.  Each observation becomes a row of one entry
    ([points[:, None]]); [np.median(diff)] is an [np.float64], which is a
    Python [float], so the scalar branch of the clamp is the one taken. *)
Definition _is_outlier (points : list Z) (thresh : float) : list bool :=
  let median := Np.median_int points in
  let rows := (λ p, [Py.float_of_Z p]) <$> points in
  let diff :=
    (λ row, Np.sum ((λ p, Np.square (p - median)%float) <$> row)) <$> rows in
  let diff := PrimFloat.sqrt <$> diff in
  let med_abs_deviation := Np.median diff in
  let med_abs_deviation := Np.maximum med_abs_deviation 1e-10%float in
  let modified_z_score :=
    (λ d, (0.6745 * d / med_abs_deviation)%float) <$> diff in
  (λ z, PrimFloat.ltb thresh z) <$> modified_z_score.

(** Lines 279-280: the per-line vertical extents of the outlines. *)
Definition line_heights (page_class : PAGE.Page) : list Z :=
  let y_lines_coords :=
    tr ← PAGE.text_regions page_class;
    tl ← PAGE.text_lines tr;
    if bool_decide (PAGE.coords tl = []) then []
    else [PAGE.y <$> PAGE.coords tl] in
  (λ y_line_coord, Np.max y_line_coord - Np.min y_line_coord) <$> y_lines_coords.

(** [_compute_statistics_line_height(page_class)] (lines 271-297); the
    [verbose] printing is left out. *)
Definition _compute_statistics_line_height (page_class : PAGE.Page)
  : float * float * float :=
  let line_heights := line_heights page_class in
  let line_heights_filtered :=
    if bool_decide (3 < length line_heights)%nat
    then
      let outliers := _is_outlier line_heights 3.5%float in
      Np.select_not line_heights outliers
    else line_heights in
  let mean := Np.mean (Np.astype_float line_heights_filtered) in
  let median := Np.median_int line_heights_filtered in
  let standard_deviation := Np.std (Np.astype_float line_heights_filtered) in
  (mean, standard_deviation, median).

(** Mean, standard deviation and median of the retained heights
    (lines 293-297). *)
Definition stats_of (kept : list Z) : float * float * float :=
  (Np.mean (Np.astype_float kept), Np.std (Np.astype_float kept), Np.median_int kept).

(** The modified Z-score test as the specification words it, for one value
    of a sample. *)
Module RobustStatisticsSpec.

Definition abs_deviation (sample : list Z) (v : Z) : float :=
  PrimFloat.abs (Py.float_of_Z v - Np.median_int sample)%float.

Definition mad (sample : list Z) : float :=
  Np.maximum (Np.median (abs_deviation sample <$> sample)) 1e-10%float.

Definition is_outlier (sample : list Z) (v : Z) : bool :=
  PrimFloat.ltb 3.5%float (0.6745 * abs_deviation sample v / mad sample)%float.

(** Squaring a deviation and taking the square root gives back its
    magnitude: the square does not overflow or underflow. *)
Definition squares_exactly (sample : list Z) (v : Z) : Prop :=
  let d := (Py.float_of_Z v - Np.median_int sample)%float in
  PrimFloat.sqrt (d * d) = PrimFloat.abs d.

Definition survivors (sample : list Z) : list Z :=
  filter (λ v, is_outlier sample v = false) sample.

End RobustStatisticsSpec.

(** * ClassEncoder: the class table of [cbad_set_generator] *)

(** Lines 204-218: the list [classes], built by conditional appends. *)
Definition classes (draw_baselines draw_lines draw_endpoints : bool) : list color :=
  let classes := [(0, 0, 0)] in
  let classes :=
    if draw_baselines then classes ++ [DRAWING_COLOR_BASELINES] else classes in
  let classes :=
    if draw_lines then classes ++ [DRAWING_COLOR_LINES] else classes in
  let classes :=
    if draw_endpoints then classes ++ [DRAWING_COLOR_POINTS] else classes in
  let classes :=
    if draw_baselines && draw_lines
    then classes ++ [Py.tuple_add DRAWING_COLOR_BASELINES DRAWING_COLOR_LINES]
    else classes in
  let classes :=
    if draw_baselines && draw_endpoints
    then classes ++ [Py.tuple_add DRAWING_COLOR_BASELINES DRAWING_COLOR_POINTS]
    else classes in
  let classes :=
    if draw_lines && draw_endpoints
    then classes ++ [Py.tuple_add DRAWING_COLOR_LINES DRAWING_COLOR_POINTS]
    else classes in
  let classes :=
    if draw_baselines && draw_lines && draw_endpoints
    then classes ++ [Py.tuple_add (Py.tuple_add DRAWING_COLOR_BASELINES DRAWING_COLOR_LINES)
                                  DRAWING_COLOR_POINTS]
    else classes in
  classes.

(** Lines 220-225: [final_classes], the array handed to [np.savetxt]. *)
Definition final_classes (multilabel : bool) (classes : list color) : list (list Z) :=
  if multilabel then
    let multiclass_codes :=
      Py.astype_int
        (Py.greater (Py.array_of_tuples classes)
                    (replicate (length classes) [0; 0; 0])) in
    Py.hstack (Py.array_of_tuples classes) multiclass_codes
  else Py.array_of_tuples classes.

(** The class table as the specification words it: background, the enabled
    single channels, the pairwise sums of enabled channels, the triple sum. *)
Module ClassEncoderSpec.

Record channel := { enabled : bool; paint : color }.

Definition channels (draw_baselines draw_lines draw_endpoints : bool) : list channel :=
  [ {| enabled := draw_baselines; paint := DRAWING_COLOR_BASELINES |};
    {| enabled := draw_lines; paint := DRAWING_COLOR_LINES |};
    {| enabled := draw_endpoints; paint := DRAWING_COLOR_POINTS |} ].

(** Sum of the colors of a combination, when every member is enabled. *)
Definition combination (cs : list channel) : list color :=
  if forallb enabled cs
  then [foldl Py.tuple_add (0, 0, 0) (paint <$> cs)]
  else [].

Definition class_table (draw_baselines draw_lines draw_endpoints : bool) : list color :=
  match channels draw_baselines draw_lines draw_endpoints with
  | [b; l; e] =>
      [(0, 0, 0)]
        ++ combination [b] ++ combination [l] ++ combination [e]
        ++ combination [b; l] ++ combination [b; e] ++ combination [l; e]
        ++ combination [b; l; e]
  | _ => []
  end.

(** The multilabel row: the color followed by the indicator of each
    component being greater than zero. *)
Definition indicator (x : Z) : Z := if bool_decide (0 < x) then 1 else 0.

Definition multilabel_row (c : color) : list Z :=
  let '(c0, c1, c2) := c in
  [c0; c1; c2] ++ [indicator c0; indicator c1; indicator c2].

End ClassEncoderSpec.

(** * The world: filesystem, directories, standard output *)

(** An image is a height x width x channels array, a single-channel buffer
    a height x width array. *)
Definition image : Type := list (list (list Z)).
Definition buffer : Type := list (list Z).

(** What a file holds, as the program reads or writes it: a decoded image,
    a parsed PAGE document, the integer rows of [np.savetxt], the rows of a
    csv file.  Encoding and parsing are the collaborators' and are not
    modelled: a file read with the wrong reader raises [OSError]. *)
Inductive file :=
| Image (img : image)
| Xml (page : PAGE.Page)
| Text (rows : list (list Z))
| Csv (rows : list (list string)).

Record world := World {
  files : gmap string file;
  dirs : gset string;
  stdout : list string
}.

(** Same files and directories; standard output may have grown. *)
Definition same_storage (w w' : world) : Prop :=
  files w' = files w ∧ dirs w' = dirs w.

(** Computations that read and write the world and may raise. *)
Definition M (A : Type) : Type := world → (exn + A) * world.

#[global] Instance M_ret : MRet M := λ A (a : A) w, (inr a, w).

#[global] Instance M_bind : MBind M := λ A B (f : A → M B) (m : M A) w,
  match m w with
  | (inr a, w') => f a w'
  | (inl e, w') => (inl e, w')
  end.

Definition raise {A} (e : exn) : M A := λ w, (inl e, w).

(** A pure computation that may raise. *)
Definition lift {A} (r : exn + A) : M A := λ w, (r, w).

(** Runs [m] as the body of a [try] whose [except] clause names [e]: the
    outcome tells whether [e] was raised; any other exception propagates. *)
Definition attempt {A} (e : exn) (m : M A) : M (option A) := λ w,
  match m w with
  | (inr a, w') => (inr (Some a), w')
  | (inl e', w') => if decide (e' = e) then (inr None, w') else (inl e', w')
  end.

Definition print (line : string) : M unit := λ w,
  (inr (), World (files w) (dirs w) (stdout w ++ [line])).

(** ** Strings and paths (posixpath) *)

Module Str.

Definition of_list : list Ascii.ascii → string := String.string_of_list_ascii.
Definition to_list : string → list Ascii.ascii := String.list_ascii_of_string.

Definition sep : Ascii.ascii := "/"%char.

Fixpoint take_until (c : Ascii.ascii) (l : list Ascii.ascii) : list Ascii.ascii :=
  match l with
  | [] => []
  | a :: l' => if Ascii.eqb a c then [] else a :: take_until c l'
  end.

(** The list from its first [c] on, that [c] included. *)
Fixpoint drop_until (c : Ascii.ascii) (l : list Ascii.ascii) : list Ascii.ascii :=
  match l with
  | [] => []
  | a :: l' => if Ascii.eqb a c then l else drop_until c l'
  end.

Fixpoint lstrip (c : Ascii.ascii) (l : list Ascii.ascii) : list Ascii.ascii :=
  match l with
  | [] => []
  | a :: l' => if Ascii.eqb a c then lstrip c l' else l
  end.

(** [s.split(c)[0]] and [s.split(c)[-1]]. *)
Definition split_first (c : Ascii.ascii) (s : string) : string :=
  of_list (take_until c (to_list s)).

Definition split_last (c : Ascii.ascii) (s : string) : string :=
  of_list (reverse (take_until c (reverse (to_list s)))).

(** [s[:-n]]. *)
Definition drop_last (n : nat) (s : string) : string :=
  of_list (take (length (to_list s) - n) (to_list s)).

Definition startswith_sep (s : string) : bool :=
  match s with
  | String a _ => Ascii.eqb a sep
  | EmptyString => false
  end.

Definition endswith_sep (s : string) : bool :=
  match reverse (to_list s) with
  | a :: _ => Ascii.eqb a sep
  | [] => false
  end.

End Str.

Module os_path.

(** [os.path.join(a, *p)]. *)
Definition join (a : string) (p : list string) : string :=
  foldl (λ path b,
           if Str.startswith_sep b then b
           else if bool_decide (path = "") || Str.endswith_sep path then path +:+ b
           else path +:+ "/" +:+ b) a p.

(** [os.path.split(p)]: the head keeps no trailing separator unless it
    consists of separators only. *)
Definition split (p : string) : string * string :=
  let r := reverse (Str.to_list p) in
  let tail := reverse (Str.take_until Str.sep r) in
  let head := Str.drop_until Str.sep r in
  let head := match Str.lstrip Str.sep head with
              | [] => head
              | stripped => stripped
              end in
  (Str.of_list (reverse head), Str.of_list tail).

Definition dirname (p : string) : string := (split p).1.
Definition basename (p : string) : string := (split p).2.

Definition exists_ (p : string) : M bool := λ w,
  (inr (bool_decide (is_Some (files w !! p)) || bool_decide (p ∈ dirs w)), w).

End os_path.

Module os.

(** [os.makedirs(name)]: raises when the leaf exists already. *)
Definition makedirs (name : string) : M unit := λ w,
  if bool_decide (is_Some (files w !! name)) || bool_decide (name ∈ dirs w)
  then (inl FileExistsError, w)
  else (inr (), World (files w) ({[name]} ∪ dirs w) (stdout w)).

End os.

(** Reading and writing files. *)
Definition read_file (filename : string) : M file := λ w,
  match files w !! filename with
  | Some f => (inr f, w)
  | None => (inl FileNotFoundError, w)
  end.

Definition write_file (filename : string) (f : file) : M unit := λ w,
  (inr (), World (<[filename := f]> (files w)) (dirs w) (stdout w)).

Definition imread (filename : string) : M image :=
  f ← read_file filename;
  match f with Image img => mret img | _ => raise OSError end.

Definition imsave (filename : string) (img : image) : M unit :=
  write_file filename (Image img).

Definition PAGE_parse_file (filename : string) : M PAGE.Page :=
  f ← read_file filename;
  match f with Xml page => mret page | _ => raise OSError end.

Definition shutil_copy (src dst : string) : M unit :=
  f ← read_file src;
  write_file dst f.

Definition np_savetxt (filename : string) (rows : list (list Z)) : M unit :=
  write_file filename (Text rows).

(** ** Arrays *)

(** [np.zeros_like]. *)
Definition zeros_like_buffer (b : buffer) : buffer :=
  fmap (M := list) (fmap (M := list) (λ _, 0)) b.

Definition zeros_like (img : image) : image :=
  fmap (M := list) (fmap (M := list) (fmap (M := list) (λ _, 0))) img.

(** [img[:, :, k]]. *)
Definition channel (k : nat) (img : image) : buffer :=
  fmap (M := list) (fmap (M := list) (λ px : list Z, default 0 (px !! k))) img.

(** [gt[:, :, k] = b], for a buffer of the height and width of [gt]. *)
Definition set_channel (k : nat) (b : buffer) (gt : image) : image :=
  zip_with (zip_with (λ (px : list Z) v, <[k := v]> px)) gt b.

(** [img.shape[:2]]. *)
Definition shape2 (img : image) : Z * Z :=
  (Z.of_nat (length img), Z.of_nat (length (default [] (head img)))).

(** The full shape: the length of every pixel of every row. *)
Definition shape (img : image) : list (list nat) :=
  fmap (M := list) (fmap (M := list) length) img.

(** * Collaborators *)

Inductive interpolation := INTER_NEAREST | INTER_LINEAR.

(** The drawing and resizing primitives of OpenCV.  Each drawing call
    returns the buffer it was given, drawn upon. *)
Class Cv2 := {
  (** [cv2.polylines(img, pts, isClosed, color, thickness)] *)
  polylines : buffer → list (list (Z * Z)) → bool → Z → Z → buffer;
  (** [cv2.fillPoly(img, pts, color)] *)
  fillPoly : buffer → list (list (Z * Z)) → Z → buffer;
  (** [cv2.circle(img, center, radius, color, thickness)] *)
  circle : buffer → Z * Z → Z → Z → Z → buffer;
  (** [cv2.resize(img, dsize, interpolation)] *)
  resize : image → Z * Z → interpolation → image
}.

(** The operating system: [glob] lists the paths that match a pattern in
    some order, [os.path.abspath] completes a path. *)
Class Os := {
  glob : string → world → list string;
  abspath : string → string
}.

(** pandas sampling: [sample_locs frac random_state N] is the array of
    positions that [df.sample(frac=frac, random_state=random_state)] draws,
    without replacement, from a frame of [N] rows. *)
Class Pandas := {
  sample_locs : float → Z → nat → list nat
}.

(** What sampling without replacement promises: positions of the frame,
    none of them twice. *)
Class PandasLaws `{Pandas} : Prop := {
  sample_locs_NoDup : ∀ frac random_state N, NoDup (sample_locs frac random_state N);
  sample_locs_bound : ∀ frac random_state N i,
    i ∈ sample_locs frac random_state N → (i < N)%nat
}.

(** Drawing on a buffer keeps its height and width. *)
Definition same_size (a b : buffer) : Prop :=
  fmap (M := list) length a = fmap (M := list) length b.

Class Cv2Laws `{Cv2} : Prop := {
  polylines_size : ∀ b pts closed color thickness,
    same_size (polylines b pts closed color thickness) b;
  fillPoly_size : ∀ b pts color, same_size (fillPoly b pts color) b;
  circle_size : ∀ b center radius color thickness,
    same_size (circle b center radius color thickness) b
}.

(** * DatasetBuilder *)

Section DatasetBuilder.

Context `{Cv2} `{Os}.

(** [get_page_filename] (lines 23-37). *)
Definition get_page_filename (image_filename : string) : M string :=
  let page_filename :=
    os_path.join (os_path.dirname image_filename)
                 ["page"; Str.drop_last 4 (os_path.basename image_filename) +:+ ".xml"] in
  found ← os_path.exists_ page_filename;
  if found : bool then mret page_filename else raise FileNotFoundError.

(** [get_image_label_basename] (lines 40-50). *)
Definition get_image_label_basename (image_filename : string) : string :=
  let '(directory, basename) := os_path.split image_filename in
  let acronym := Str.split_first "_" (Str.split_last Str.sep directory) in
  acronym +:+ "_" +:+ Str.split_first "." basename.

(** [save_and_resize] (lines 53-73); [size] is [None] or a pixel count. *)
Definition save_and_resize (img : image) (filename : string)
    (size : option Z) (nearest : bool) : M unit :=
  match size with
  | Some size =>
      let '(h, w) := shape2 img in
      if bool_decide (h * w = 0) then raise ZeroDivisionError
      else
        let ratio := PrimFloat.sqrt (Py.float_of_Z size / Py.float_of_Z (h * w)) in
        new_w ← lift (Py.int_of_float (Py.float_of_Z w * ratio));
        new_h ← lift (Py.int_of_float (Py.float_of_Z h * ratio));
        let resized :=
          resize img (new_w, new_h) (if nearest then INTER_NEAREST else INTER_LINEAR) in
        imsave filename resized
  | None => imsave filename img
  end.

(** Lines 112: the absolute thickness of the baseline strokes. *)
Definition absolute_baseline_thickness (gt : image) (baseline_thickness : float)
    (mean_line_height : float) : exn + Z :=
  Py.int_of_float
    (Py.max (Py.float_of_Z (shape2 gt).1 * 0.002)
            (baseline_thickness * mean_line_height)).

(** Lines 108-121: the baselines, stroked into the channel of their
    color. *)
Definition draw_baselines_block (page : PAGE.Page) (text_lines : list PAGE.TextLine)
    (img gt : image) (baseline_thickness : float) : M image :=
  let '(mean_line_height, _, _) := _compute_statistics_line_height page in
  absolute_baseline_thickness ←
    lift (absolute_baseline_thickness gt baseline_thickness mean_line_height);
  let gt_baselines := zeros_like_buffer (channel 0 img) in
  let gt_baselines :=
    polylines gt_baselines
              ((λ tl, PAGE.list_to_cv2poly (PAGE.baseline tl)) <$> text_lines)
              false 255 absolute_baseline_thickness in
  mret (set_channel (Py.argmax DRAWING_COLOR_BASELINES) gt_baselines gt).

(** Lines 123-130: the outlines, filled one line after the other. *)
Definition draw_lines_block (text_lines : list PAGE.TextLine) (img gt : image) : M image :=
  let gt_lines := zeros_like_buffer (channel 0 img) in
  let gt_lines :=
    foldl (λ gt_lines tl,
             fillPoly gt_lines [PAGE.list_to_cv2poly (PAGE.coords tl)] 255)
          gt_lines text_lines in
  mret (set_channel (Py.argmax DRAWING_COLOR_LINES) gt_lines gt).

(** [seq[i]] for [i = 0] and [i = -1]. *)
Definition getitem_first {A} (l : list A) : M A :=
  match head l with Some a => mret a | None => raise IndexError end.

Definition getitem_last {A} (l : list A) : M A :=
  match last l with Some a => mret a | None => raise IndexError end.

Definition endpoint_radius (diameter_endpoint : Z) (gt_points : buffer) : exn + Z :=
  Py.int_of_float
    (Py.float_of_Z diameter_endpoint / 2
     * (Py.float_of_Z (Z.of_nat (length gt_points)) / Py.float_of_Z TARGET_HEIGHT)).

(** Lines 137-139 and 140-142: the two statements of the [try] body. *)
Definition draw_first_endpoint (tl : PAGE.TextLine) (diameter_endpoint : Z)
    (gt_points : buffer) : M buffer :=
  p ← getitem_first (PAGE.baseline tl);
  radius ← lift (endpoint_radius diameter_endpoint gt_points);
  mret (circle gt_points (PAGE.x p, PAGE.y p) radius 255 (-1)).

Definition draw_last_endpoint (tl : PAGE.TextLine) (diameter_endpoint : Z)
    (gt_points : buffer) : M buffer :=
  p ← getitem_last (PAGE.baseline tl);
  radius ← lift (endpoint_radius diameter_endpoint gt_points);
  mret (circle gt_points (PAGE.x p, PAGE.y p) radius 255 (-1)).

(** Lines 136-144: one iteration of the endpoint loop.  An [IndexError]
    leaves [gt_points] as the statements before it made it and prints the
    length of the baseline. *)
Definition draw_endpoints_of_line (tl : PAGE.TextLine) (diameter_endpoint : Z)
    (gt_points : buffer) : M buffer :=
  let handler (gt_points : buffer) : M buffer :=
    print ("Length of baseline is " +:+ pretty (length (PAGE.baseline tl)));;
    mret gt_points in
  first ← attempt IndexError (draw_first_endpoint tl diameter_endpoint gt_points);
  match first with
  | None => handler gt_points
  | Some gt_points =>
      second ← attempt IndexError (draw_last_endpoint tl diameter_endpoint gt_points);
      match second with
      | None => handler gt_points
      | Some gt_points => mret gt_points
      end
  end.

(** Lines 135-144: the loop over the text lines. *)
Fixpoint draw_endpoints_loop (text_lines : list PAGE.TextLine) (diameter_endpoint : Z)
    (gt_points : buffer) : M buffer :=
  match text_lines with
  | [] => mret gt_points
  | tl :: text_lines =>
      gt_points ← draw_endpoints_of_line tl diameter_endpoint gt_points;
      draw_endpoints_loop text_lines diameter_endpoint gt_points
  end.

(** Lines 132-145. *)
Definition draw_endpoints_block (text_lines : list PAGE.TextLine) (img gt : image)
    (diameter_endpoint : Z) : M image :=
  let gt_points := zeros_like_buffer (channel 0 img) in
  gt_points ← draw_endpoints_loop text_lines diameter_endpoint gt_points;
  mret (set_channel (Py.argmax DRAWING_COLOR_POINTS) gt_points gt).

(** Lines 102-145: the label mask of one page. *)
Definition label_mask (page : PAGE.Page) (img : image)
    (draw_baselines draw_lines draw_endpoints : bool)
    (baseline_thickness : float) (diameter_endpoint : Z) : M image :=
  let text_lines := tr ← PAGE.text_regions page; PAGE.text_lines tr in
  let gt := zeros_like img in
  if bool_decide (text_lines = []) then mret gt
  else
    gt ← (if draw_baselines
          then draw_baselines_block page text_lines img gt baseline_thickness
          else mret gt);
    gt ← (if draw_lines then draw_lines_block text_lines img gt else mret gt);
    gt ← (if draw_endpoints
          then draw_endpoints_block text_lines img gt diameter_endpoint
          else mret gt);
    mret gt.

(** [annotate_one_page] (lines 76-157). *)
Definition annotate_one_page (image_filename output_dir : string) (size : option Z)
    (draw_baselines draw_lines draw_endpoints : bool)
    (baseline_thickness : float) (diameter_endpoint : Z) : M (string * string) :=
  page_filename ← get_page_filename image_filename;
  page ← PAGE_parse_file page_filename;
  img ← imread image_filename;
  gt ← label_mask page img draw_baselines draw_lines draw_endpoints
                  baseline_thickness diameter_endpoint;
  let image_label_basename := get_image_label_basename image_filename in
  let output_image_path :=
    os_path.join output_dir ["images"; image_label_basename +:+ ".jpg"] in
  let output_label_path :=
    os_path.join output_dir ["labels"; image_label_basename +:+ ".png"] in
  save_and_resize img output_image_path size false;;
  save_and_resize gt output_label_path size true;;
  shutil_copy page_filename
              (os_path.join output_dir ["gt"; image_label_basename +:+ ".xml"]);;
  mret (abspath output_image_path, abspath output_label_path).

(** Lines 192-201: the loop that fills [tuples_images_labels]. *)
Fixpoint annotate_all (image_filenames_list : list string) (output_dir : string)
    (img_size : option Z) (draw_baselines draw_lines : bool) (line_thickness : float)
    (draw_endpoints : bool) (circle_thickness : Z)
    (tuples_images_labels : list (string * string)) : M (list (string * string)) :=
  match image_filenames_list with
  | [] => mret tuples_images_labels
  | image_filename :: image_filenames_list =>
      '(output_image_path, output_label_path) ←
        annotate_one_page image_filename output_dir img_size draw_baselines
                          draw_lines draw_endpoints line_thickness circle_thickness;
      annotate_all image_filenames_list output_dir img_size draw_baselines draw_lines
                   line_thickness draw_endpoints circle_thickness
                   (tuples_images_labels ++ [(output_image_path, output_label_path)])
  end.

(** [cbad_set_generator] (lines 160-232). *)
Definition cbad_set_generator (input_dir output_dir : string) (img_size : option Z)
    (multilabel draw_baselines draw_lines : bool) (line_thickness : float)
    (draw_endpoints : bool) (circle_thickness : Z) : M unit :=
  image_filenames_list ← (λ w, (inr (glob (input_dir +:+ "/**/*.jp*g") w), w));
  os.makedirs (os_path.join output_dir ["images"]);;
  os.makedirs (os_path.join output_dir ["labels"]);;
  os.makedirs (os_path.join output_dir ["gt"]);;
  tuples_images_labels ←
    annotate_all image_filenames_list output_dir img_size draw_baselines draw_lines
                 line_thickness draw_endpoints circle_thickness [];
  let classes := classes draw_baselines draw_lines draw_endpoints in
  let final_classes := final_classes multilabel classes in
  np_savetxt (os_path.join output_dir ["classes.txt"]) final_classes;;
  write_file (os_path.join output_dir ["set_data.csv"])
             (Csv ((λ row : string * string, [row.1; row.2]) <$> tuples_images_labels)).

End DatasetBuilder.

(** * SplitSampler *)

(** A manifest as pandas holds it: every row with its index label. *)
Abbreviation DataFrame := (list (nat * list string)).

Section SplitSampler.

Context `{Pandas}.

(** [pd.read_csv(filename, header=None)]: the rows, labelled 0, 1, ... *)
Definition pd_read_csv (filename : string) : M DataFrame :=
  f ← read_file filename;
  match f with
  | Csv rows => mret (zip (seq 0 (length rows)) rows)
  | _ => raise OSError
  end.

(** [df.index]. *)
Definition index (df : DataFrame) : list nat := df.*1.

(** [df.sample(frac=frac, random_state=random_state)]: the rows at the
    positions drawn. *)
Definition sample (df : DataFrame) (frac : float) (random_state : Z) : DataFrame :=
  let locs := sample_locs frac random_state (length df) in
  omap (λ i, df !! i) locs.

(** [a.difference(b)]: the labels of [a] that are not in [b], sorted. *)
Definition difference (a b : list nat) : list nat :=
  merge_sort le (filter (λ i, i ∉ b) a).

(** [df.loc[labels]]. *)
Definition loc (df : DataFrame) (labels : list nat) : DataFrame :=
  omap (λ l, head (filter (λ r : nat * list string, r.1 = l) df)) labels.

(** Lines 245-248: the evaluation sample and the training complement. *)
Definition split_frames (df_data : DataFrame) : DataFrame * DataFrame :=
  let df_eval := sample df_data 0.15 42 in
  let indexes := difference (index df_data) (index df_eval) in
  let df_train := loc df_data indexes in
  (df_eval, df_train).

(** [df.to_csv(filename, header=False, index=False)]. *)
Definition to_csv (df : DataFrame) (filename : string) : M unit :=
  write_file filename (Csv df.*2).

(** [split_set_for_eval] (lines 235-253). *)
Definition split_set_for_eval (csv_filename : string) : M unit :=
  df_data ← pd_read_csv csv_filename;
  let '(df_eval, df_train) := split_frames df_data in
  let saving_dir := os_path.dirname csv_filename in
  to_csv df_eval (os_path.join saving_dir ["eval_data.csv"]);;
  to_csv df_train (os_path.join saving_dir ["train_data.csv"]).

End SplitSampler.

(** * A small implementation of the collaborators

    Used to run the functions above on concrete pages and manifests.  The
    rasteriser is not OpenCV's: strokes and polygons only mark their
    vertices, a filled circle is the set of pixels within its radius of the
    center, resizing picks the nearest source pixel. *)
Module Sim.

Definition set_pixel (b : buffer) (p : Z * Z) (v : Z) : buffer :=
  let '(px, py) := p in
  if bool_decide (0 ≤ px) && bool_decide (0 ≤ py)
  then alter (λ row, <[Z.to_nat px := v]> row) (Z.to_nat py) b
  else b.

Definition disc (b : buffer) (center : Z * Z) (radius v : Z) : buffer :=
  let '(cx, cy) := center in
  imap (λ i row,
          imap (λ j old,
                  let dx := Z.of_nat j - cx in
                  let dy := Z.of_nat i - cy in
                  if bool_decide (dx * dx + dy * dy ≤ radius * radius) then v else old)
               row) b.

Definition nearest (img : image) (dsize : Z * Z) : image :=
  let '(w', h') := dsize in
  let '(h, w) := shape2 img in
  (λ i, (λ j, default []
                (row ← img !! Z.to_nat (Z.of_nat i * h / h');
                 row !! Z.to_nat (Z.of_nat j * w / w')))
        <$> seq 0 (Z.to_nat w'))
  <$> seq 0 (Z.to_nat h').

#[export] Instance cv2 : Cv2 := {|
  polylines b pts _ color _ := foldl (λ b p, set_pixel b p color) b (concat pts);
  fillPoly b pts color := foldl (λ b p, set_pixel b p color) b (concat pts);
  circle b center radius color _ := disc b center radius color;
  resize img dsize _ := nearest img dsize
|}.

(** [*] matches any run of characters other than the separator. *)
Fixpoint wildcard (pat : list Ascii.ascii) : list Ascii.ascii → bool :=
  match pat with
  | [] => λ s, bool_decide (s = [])
  | c :: pat' =>
      if Ascii.eqb c "*"
      then fix star (s : list Ascii.ascii) : bool :=
             wildcard pat' s
             || match s with
                | [] => false
                | a :: s' => negb (Ascii.eqb a Str.sep) && star s'
                end
      else λ s,
             match s with
             | a :: s' => Ascii.eqb a c && wildcard pat' s'
             | [] => false
             end
  end.

#[export] Instance os : Os := {|
  glob pattern w :=
    filter (λ path, wildcard (Str.to_list pattern) (Str.to_list path) = true)
           (map_to_list (files w)).*1;
  abspath path := if Str.startswith_sep path then path else "/cwd/" +:+ path
|}.

(** Draws the last [round(frac * N)] positions, the last one first. *)
#[export] Instance pandas : Pandas := {|
  sample_locs frac _ N :=
    match Py.round (frac * Py.float_of_Z (Z.of_nat N)) with
    | inr n => take (Z.to_nat n) (reverse (seq 0 N))
    | inl _ => []
    end
|}.

(** A blank RGB image of the given height and width. *)
Definition blank (h w : nat) : image := replicate h (replicate w [0; 0; 0]).

Definition point (px py : Z) : PAGE.Point := {| PAGE.x := px; PAGE.y := py |}.

Definition line (baseline coords : list (Z * Z)) : PAGE.TextLine :=
  {| PAGE.baseline := (λ p, point p.1 p.2) <$> baseline;
     PAGE.coords := (λ p, point p.1 p.2) <$> coords |}.

Definition page (lines : list PAGE.TextLine) : PAGE.Page :=
  {| PAGE.text_regions := [ {| PAGE.text_lines := lines |} ] |}.

(** A page whose lines have the given outline heights. *)
Definition page_of_heights (heights : list Z) : PAGE.Page :=
  page ((λ h, line [] [(0, 0); (0, h)]) <$> heights).

Definition world_of (l : list (string * file)) : world :=
  World (list_to_map l) ∅ [].

(** Sample lines, pages, buffers and worlds. *)
Definition one_point_line : PAGE.TextLine := line [(1, 1)] [(0, 0); (2, 2)].
Definition two_point_line : PAGE.TextLine := line [(0, 2); (2, 2)] [(0, 1); (2, 2)].
Definition small_buffer : buffer := replicate 3 (replicate 3 0).

Definition two_line_page : PAGE.Page :=
  page [line [(1, 1); (4, 1)] [(1, 0); (4, 0); (4, 2); (1, 2)]; line [(2, 3)] [(1, 3); (4, 3)]].

(** Three images listed in the order p3, p1, p2; p1 has no companion. *)
Definition archive : world :=
  world_of [ ("in/A_x/p3.jpg", Image (blank 4 6));
             ("in/A_x/page/p3.xml", Xml two_line_page);
             ("in/A_x/p1.jpg", Image (blank 4 6));
             ("in/A_x/p2.jpg", Image (blank 4 6));
             ("in/A_x/page/p2.xml", Xml (page [])) ].

(** Two complete images, listed in the order p3, p2. *)
Definition library : world :=
  world_of [ ("in/A_x/p3.jpg", Image (blank 4 6));
             ("in/A_x/page/p3.xml", Xml two_line_page);
             ("in/A_x/p2.jpg", Image (blank 4 6));
             ("in/A_x/page/p2.xml", Xml (page [])) ].

Definition generate (w : world) : (exn + unit) * world :=
  cbad_set_generator "in" "out" (Some 24) false true false 0.2 true 20 w.

Definition manifest : list (list string) :=
  (λ n : nat, ["images/" +:+ pretty n +:+ ".jpg"; "labels/" +:+ pretty n +:+ ".png"])
    <$> seq 0 10.

End Sim.

(** * Theorems *)

(** ** Facts on binary64 arithmetic *)

Lemma Prim2SF_eq (a b : float) : Prim2SF a = Prim2SF b → a = b.
Proof.
  intros E. rewrite <- (SF2Prim_Prim2SF a), <- (SF2Prim_Prim2SF b). by rewrite E.
Qed.

Lemma square_not_negative_zero (d : float) : Prim2SF (d * d) ≠ S754_zero true.
Proof.
  rewrite mul_spec. unfold SF64mul, SFmul.
  destruct (Prim2SF d) as [s | s | | s m e]; try discriminate; try (destruct s; discriminate).
  unfold binary_round_aux.
  repeat match goal with |- context [shr_fexp ?a ?b ?c ?d ?e] => destruct (shr_fexp a b c d e) end.
  match goal with |- context [shr_m ?r] => destruct (shr_m r) end; [destruct s; discriminate | | discriminate].
  by destruct (_ <=? _).
Qed.

Lemma add_zero_l (x : float) : Prim2SF x ≠ S754_zero true → (0 + x)%float = x.
Proof.
  intros Hx. apply Prim2SF_eq. rewrite add_spec.
  change (Prim2SF 0) with (S754_zero false).
  unfold SF64add, SFadd.
  destruct (Prim2SF x) as [[] | | | ]; try reflexivity. done.
Qed.

Lemma sum_singleton_square (d : float) : Np.sum [Np.square d] = Np.square d.
Proof. apply add_zero_l, square_not_negative_zero. Qed.

Lemma maximum_not_zero (a : float) : PrimFloat.is_zero (Np.maximum a 1e-10) = false.
Proof.
  unfold Np.maximum.
  destruct (PrimFloat.leb 1e-10 a || PrimFloat.is_nan a) eqn:E; [| reflexivity].
  unfold PrimFloat.is_zero, PrimFloat.is_nan in *.
  rewrite FloatAxioms.eqb_spec. rewrite leb_spec, FloatAxioms.eqb_spec in E.
  change (Prim2SF 1e-10) with (S754_finite false 7737125245533627 (-86)) in E.
  change (Prim2SF PrimFloat.zero) with (S754_zero false).
  destruct (Prim2SF a) as [s | s | | s m e]; try reflexivity.
  all: destruct s; try reflexivity; try discriminate.
Qed.
Lemma digits2_pos_bounds (m : positive) :
  2 ^ (Z.pos (digits2_pos m) - 1) ≤ Z.pos m < 2 ^ Z.pos (digits2_pos m).
Proof.
  induction m as [m IH | m IH |]; cbn [digits2_pos].
  - rewrite Pos2Z.inj_succ, Z.pow_succ_r by lia.
    replace (Z.succ (Z.pos (digits2_pos m)) - 1) with (Z.succ (Z.pos (digits2_pos m) - 1)) by lia.
    rewrite Z.pow_succ_r by lia. lia.
  - rewrite Pos2Z.inj_succ, Z.pow_succ_r by lia.
    replace (Z.succ (Z.pos (digits2_pos m)) - 1) with (Z.succ (Z.pos (digits2_pos m) - 1)) by lia.
    rewrite Z.pow_succ_r by lia. lia.
  - cbn. lia.
Qed.

Lemma magnitude_scaled (m : positive) (e K : Z) :
  0 ≤ K → 0 ≤ e + K → Py.magnitude m e = (Z.pos m * 2 ^ (e + K)) / 2 ^ K.
Proof.
  intros HK HeK. unfold Py.magnitude.
  assert (0 < 2 ^ K) by (apply Z.pow_pos_nonneg; lia).
  destruct (Z.leb_spec 0 e).
  - rewrite Z.pow_add_r by lia. rewrite Z.mul_assoc, Z.div_mul by lia. reflexivity.
  - replace K with ((e + K) + - e) at 2 by lia.
    rewrite (Z.pow_add_r 2 (e + K) (- e)) by lia.
    assert (0 < 2 ^ (e + K)) by (apply Z.pow_pos_nonneg; lia).
    rewrite (Z.mul_comm (Z.pos m)), Z.div_mul_cancel_l by lia. reflexivity.
Qed.

Lemma magnitude_nonneg (m : positive) (e : Z) : 0 ≤ Py.magnitude m e.
Proof.
  unfold Py.magnitude. destruct (Z.leb_spec 0 e).
  - apply Z.mul_nonneg_nonneg; [lia | apply Z.pow_nonneg; lia].
  - apply Z.div_pos; [lia | apply Z.pow_pos_nonneg; lia].
Qed.

Lemma valid_finite (m : positive) (e : Z) :
  bounded prec emax m e = true →
  -1074 ≤ e ∧ Z.pos m < 2 ^ 53 ∧ (e = -1074 ∨ 2 ^ 52 ≤ Z.pos m).
Proof.
  unfold bounded, canonical_mantissa, fexp, emin, prec, emax.
  intros [Hc _]%andb_prop. apply Z.eqb_eq in Hc.
  pose proof (digits2_pos_bounds m) as [Hlo Hhi].
  assert (Hd : Z.pos (digits2_pos m) ≤ 53) by lia.
  split; [lia |]. split.
  - eapply Z.lt_le_trans; [exact Hhi |]. apply Z.pow_le_mono_r; lia.
  - destruct (decide (e = -1074)); [by left | right].
    assert (Z.pos (digits2_pos m) = 53) as Hd53 by lia.
    rewrite Hd53 in Hlo. exact Hlo.
Qed.

Lemma magnitude_mono (m1 m2 : positive) (e1 e2 : Z) :
  bounded prec emax m1 e1 = true → bounded prec emax m2 e2 = true →
  (e1 < e2 ∨ (e1 = e2 ∧ Z.pos m1 ≤ Z.pos m2)) →
  Py.magnitude m1 e1 ≤ Py.magnitude m2 e2.
Proof.
  intros (He1 & Hm1 & Hn1)%valid_finite (He2 & Hm2 & Hn2)%valid_finite Hlt.
  rewrite (magnitude_scaled m1 e1 1074), (magnitude_scaled m2 e2 1074) by lia.
  apply Z.div_le_mono; [apply Z.pow_pos_nonneg; lia |].
  assert (HP : 0 < 2 ^ (e1 + 1074)) by (apply Z.pow_pos_nonneg; lia).
  destruct Hlt as [Hlt | [-> Hle]].
  - replace (e2 + 1074) with ((e1 + 1074) + (e2 - e1)) by lia.
    rewrite (Z.pow_add_r 2 (e1 + 1074) (e2 - e1)) by lia.
    assert (H2 : 2 ^ 1 ≤ 2 ^ (e2 - e1)) by (apply Z.pow_le_mono_r; lia).
    destruct Hn2 as [-> | Hn2]; [lia |].
    change (2 ^ 53) with 9007199254740992 in Hm1.
    change (2 ^ 52) with 4503599627370496 in Hn2.
    change (2 ^ 1) with 2 in H2.
    set (P := 2 ^ (e1 + 1074)) in *. set (Q := 2 ^ (e2 - e1)) in *.
    assert (Z.pos m1 ≤ Z.pos m2 * Q) by nia.
    rewrite (Z.mul_comm P Q), Z.mul_assoc.
    apply Z.mul_le_mono_nonneg_r; lia.
  - apply Z.mul_le_mono_nonneg_r; lia.
Qed.

Lemma int_of_float_finite (x : float) (s : bool) (m : positive) (e : Z) :
  Prim2SF x = S754_finite s m e →
  Py.int_of_float x = inr (if s then - Py.magnitude m e else Py.magnitude m e).
Proof. intros E. unfold Py.int_of_float. rewrite E. reflexivity. Qed.

Lemma int_of_float_zero (x : float) (s : bool) :
  Prim2SF x = S754_zero s → Py.int_of_float x = inr 0.
Proof. intros E. unfold Py.int_of_float. rewrite E. reflexivity. Qed.

Lemma int_of_float_mono (a b : float) (ta tb : Z) :
  PrimFloat.ltb a b = true →
  Py.int_of_float a = inr ta → Py.int_of_float b = inr tb → ta ≤ tb.
Proof.
  rewrite ltb_spec. unfold SFltb.
  pose proof (Prim2SF_valid a) as Va. pose proof (Prim2SF_valid b) as Vb.
  destruct (Prim2SF a) as [sa | sa | | sa ma ea] eqn:Ea;
    destruct (Prim2SF b) as [sb | sb | | sb mb eb] eqn:Eb;
    cbn [SFcompare valid_binary] in *; try discriminate;
    rewrite ?(int_of_float_zero _ _ Ea), ?(int_of_float_zero _ _ Eb),
            ?(int_of_float_finite _ _ _ _ Ea), ?(int_of_float_finite _ _ _ _ Eb);
    try (unfold Py.int_of_float; rewrite ?Ea, ?Eb; intros; discriminate).
  - destruct sb; [discriminate |]. intros _ [= <-] [= <-].
    apply magnitude_nonneg.
  - destruct sa; [| discriminate]. intros _ [= <-] [= <-].
    pose proof (magnitude_nonneg ma ea). lia.
  - intros Hc [= <-] [= <-].
    pose proof (magnitude_nonneg ma ea). pose proof (magnitude_nonneg mb eb).
    destruct sa, sb; try lia; try discriminate.
    + enough (Py.magnitude mb eb ≤ Py.magnitude ma ea) by lia.
      apply magnitude_mono; [done | done |].
      destruct (Z.compare_spec ea eb) as [-> | Hlt | Hgt]; try discriminate.
      * right. split; [done |].
        change (PosDef.Pos.compare_cont Eq ma mb) with (ma ?= mb)%positive in Hc.
        destruct (Pos.compare_spec ma mb); cbn in Hc; try discriminate; lia.
      * left. lia.
    + apply magnitude_mono; [done | done |].
      destruct (Z.compare_spec ea eb) as [-> | Hlt | Hgt]; try discriminate.
      * right. split; [done |].
        change (PosDef.Pos.compare_cont Eq ma mb) with (ma ?= mb)%positive in Hc.
        destruct (Pos.compare_spec ma mb); cbn in Hc; try discriminate; lia.
      * left. lia.
Qed.

(** ** RobustStatistics *)

Lemma select_not_fmap {A} (f : A → bool) (l : list A) :
  Np.select_not l (f <$> l) = filter (λ v, f v = false) l.
Proof.
  unfold Np.select_not.
  induction l as [| a l IH]; [reflexivity |].
  cbn [fmap list_fmap zip zip_with].
  rewrite filter_cons, (filter_cons (λ v, f v = false)). cbn [snd].
  destruct (f a) eqn:E; cbn.
  - rewrite decide_False by (intros []). rewrite decide_False by discriminate. exact IH.
  - rewrite decide_True by exact I. rewrite decide_True by reflexivity.
    cbn. f_equal. exact IH.
Qed.

Lemma is_outlier_pointwise (points : list Z) :
  Forall (RobustStatisticsSpec.squares_exactly points) points →
  _is_outlier points 3.5 = RobustStatisticsSpec.is_outlier points <$> points.
Proof.
  intros Hexact. unfold _is_outlier.
  assert (Hdiff :
    PrimFloat.sqrt <$>
      ((λ row, Np.sum ((λ p, Np.square (p - Np.median_int points)%float) <$> row)) <$>
         ((λ p, [Py.float_of_Z p]) <$> points))
    = RobustStatisticsSpec.abs_deviation points <$> points).
  { rewrite <- !list_fmap_compose. apply Forall_fmap_ext.
    eapply Forall_impl; [exact Hexact |].
    intros v Hv. unfold compose. cbn [fmap list_fmap].
    rewrite sum_singleton_square. exact Hv. }
  rewrite Hdiff. rewrite <- !list_fmap_compose. reflexivity.
Qed.

(** C8: on a 1-D sample whose deviations from the median square without
    overflow or underflow, [_is_outlier] marks the value v exactly when
    0.6745 * |v - median(sample)| / mad > 3.5, where mad is the median of
    the absolute deviations clamped from below by 1e-10; the divisor mad is
    never zero, whatever the sample, a sample of equal values included. *)
Theorem is_outlier_modified_z_score (points : list Z) :
  Forall (RobustStatisticsSpec.squares_exactly points) points →
  _is_outlier points 3.5 = RobustStatisticsSpec.is_outlier points <$> points
  ∧ PrimFloat.is_zero (RobustStatisticsSpec.mad points) = false.
Proof.
  intros Hexact. split.
  - by apply is_outlier_pointwise.
  - apply maximum_not_zero.
Qed.

Lemma is_outlier_modified_z_score_witness :
  Forall (RobustStatisticsSpec.squares_exactly [12; 12; 12; 12; 12; 13]) [12; 12; 12; 12; 12; 13]
  ∧ _is_outlier [12; 12; 12; 12; 12; 13] 3.5 = [false; false; false; false; false; true]
  ∧ RobustStatisticsSpec.mad [12; 12; 12; 12; 12; 13] = 1e-10%float.
Proof.
  assert (Hexact : Forall (RobustStatisticsSpec.squares_exactly [12; 12; 12; 12; 12; 13])
                          [12; 12; 12; 12; 12; 13]).
  { repeat constructor; vm_compute; reflexivity. }
  split; [exact Hexact |].
  destruct (is_outlier_modified_z_score _ Hexact) as [E _].
  split; [rewrite E |]; vm_compute; reflexivity.
Defined.

(** C7: on a sample of line heights with three elements or fewer no value
    is rejected and mean, standard deviation and median are those of the
    whole sample; on a larger sample they are those of the values that
    [_is_outlier] does not mark, which are the values that pass the
    modified Z-score test. *)
Theorem statistics_reject_only_above_three (page_class : PAGE.Page) :
  let sample := line_heights page_class in
  ((length sample ≤ 3)%nat →
     _compute_statistics_line_height page_class = stats_of sample)
  ∧ ((3 < length sample)%nat →
     _compute_statistics_line_height page_class
       = stats_of (Np.select_not sample (_is_outlier sample 3.5))
     ∧ (Forall (RobustStatisticsSpec.squares_exactly sample) sample →
        Np.select_not sample (_is_outlier sample 3.5)
          = RobustStatisticsSpec.survivors sample)).
Proof.
  intros sample. unfold _compute_statistics_line_height. fold sample. split.
  - intros Hle. rewrite bool_decide_eq_false_2 by lia. reflexivity.
  - intros Hgt. rewrite bool_decide_eq_true_2 by lia. split; [reflexivity |].
    intros Hexact. rewrite is_outlier_pointwise by exact Hexact.
    apply select_not_fmap.
Qed.

Lemma statistics_reject_only_above_three_witness :
  _compute_statistics_line_height (Sim.page_of_heights [10; 12; 1000])
    = (340.66666666666669, 466.21978603324942, 12)%float
  ∧ _compute_statistics_line_height (Sim.page_of_heights [10; 12; 1000; 11])
    = (11, 0.81649658092772603, 11)%float.
Proof.
  split.
  - rewrite (proj1 (statistics_reject_only_above_three _)) by (vm_compute; lia).
    vm_compute. reflexivity.
  - assert (Hgt : (3 < length (line_heights (Sim.page_of_heights [10%Z; 12%Z; 1000%Z; 11%Z])))%nat)
      by (vm_compute; lia).
    rewrite (proj1 (proj2 (statistics_reject_only_above_three _) Hgt)).
    vm_compute. reflexivity.
Defined.

(** ** ClassEncoder *)

(** C5: for every combination of the three drawing flags the class table is
    the background row, then the enabled single-channel colors in the order
    baseline, lines, endpoints, then the pairwise sums of enabled channels
    in the order baseline+lines, baseline+endpoints, lines+endpoints, then
    the triple sum; with baselines and lines enabled and endpoints and
    multilabel disabled the table written is exactly
    (0,0,0), (255,0,0), (0,255,0), (255,255,0). *)
Theorem classes_order (draw_baselines draw_lines draw_endpoints : bool) :
  classes draw_baselines draw_lines draw_endpoints
    = ClassEncoderSpec.class_table draw_baselines draw_lines draw_endpoints
  ∧ classes true true false = [(0, 0, 0); (255, 0, 0); (0, 255, 0); (255, 255, 0)]
  ∧ final_classes false (classes true true false)
    = [[0; 0; 0]; [255; 0; 0]; [0; 255; 0]; [255; 255; 0]].
Proof.
  split; [| split; reflexivity].
  destruct draw_baselines, draw_lines, draw_endpoints; reflexivity.
Qed.

(** C6: with multilabel enabled every row of the class table is followed by
    three 0/1 entries, the k-th of which is 1 exactly when the k-th color
    component of that row is greater than zero; rows keep their order and
    their number. *)
Theorem final_classes_multilabel (table : list color) :
  final_classes true table = ClassEncoderSpec.multilabel_row <$> table
  ∧ length (final_classes true table) = length table.
Proof.
  assert (E : final_classes true table = ClassEncoderSpec.multilabel_row <$> table).
  { unfold final_classes, Py.hstack, Py.greater, Py.astype_int.
    induction table as [| [[c0 c1] c2] table IH]; [reflexivity |].
    cbn [length replicate Py.array_of_tuples fmap list_fmap zip_with].
    f_equal; [| exact IH].
    unfold ClassEncoderSpec.multilabel_row, ClassEncoderSpec.indicator.
    cbn [app]. unfold Z.gtb.
    repeat f_equal.
    all: case_bool_decide as H; destruct (Z.compare_spec c0 0), (Z.compare_spec c1 0),
           (Z.compare_spec c2 0); try reflexivity; lia. }
  split; [exact E |].
  rewrite E. apply length_fmap.
Qed.

(** ** The monad *)

Lemma bind_inr {A B} (m : M A) (f : A → M B) (w w' : world) (a : A) :
  m w = (inr a, w') → (m ≫= f) w = f a w'.
Proof. intros E. unfold mbind, M_bind. rewrite E. reflexivity. Qed.

Lemma bind_inl {A B} (m : M A) (f : A → M B) (w w' : world) (e : exn) :
  m w = (inl e, w') → (m ≫= f) w = (inl e, w').
Proof. intros E. unfold mbind, M_bind. rewrite E. reflexivity. Qed.

Lemma int_of_float_max_ge (a b : float) (ta t : Z) :
  Py.int_of_float (Py.max a b) = inr t → Py.int_of_float a = inr ta → ta ≤ t.
Proof.
  unfold Py.max. destruct (PrimFloat.ltb a b) eqn:E.
  - intros Hb Ha. exact (int_of_float_mono a b ta t E Ha Hb).
  - intros Ht Ha. rewrite Ht in Ha. injection Ha as ->. lia.
Qed.

(** ** DatasetBuilder *)

Section DatasetBuilderFacts.

Context `{Cv2} `{Os}.

(** C3, as the code has it: with a pixel budget [size], [save_and_resize]
    computes ratio = sqrt(size / (h * w)) and resizes to the dimensions
    (int(w * ratio), int(h * ratio)), each product truncated toward zero
    rather than rounded; when [size] is [None] the image is saved
    unresized. *)
Theorem save_and_resize_truncates (img : image) (filename : string) (nearest : bool)
    (w0 : world) :
  save_and_resize img filename None nearest w0 = imsave filename img w0
  ∧ ∀ (size h w new_w new_h : Z),
      shape2 img = (h, w) → h * w ≠ 0 →
      let ratio := PrimFloat.sqrt (Py.float_of_Z size / Py.float_of_Z (h * w)) in
      Py.int_of_float (Py.float_of_Z w * ratio) = inr new_w →
      Py.int_of_float (Py.float_of_Z h * ratio) = inr new_h →
      save_and_resize img filename (Some size) nearest w0
        = imsave filename (resize img (new_w, new_h)
                                  (if nearest then INTER_NEAREST else INTER_LINEAR)) w0.
Proof.
  split; [reflexivity |].
  intros size h w new_w new_h Hshape Hhw ratio Hw Hh.
  unfold save_and_resize. rewrite Hshape.
  rewrite bool_decide_eq_false_2 by exact Hhw.
  fold ratio.
  erewrite bind_inr by (unfold lift; rewrite Hw; reflexivity).
  erewrite bind_inr by (unfold lift; rewrite Hh; reflexivity).
  reflexivity.
Qed.

(** C4, as the code has it: the absolute thickness of the baseline strokes
    is int(max(canvas_height * 0.002, baseline_thickness *
    mean_line_height)), the maximum truncated toward zero to an integer, so
    it is never smaller than the integer part of 0.2% of the canvas height,
    for every value of the mean line height; when the maximum is infinite
    the conversion raises and no stroke is drawn. *)
Theorem baseline_thickness_truncated (page : PAGE.Page) (text_lines : list PAGE.TextLine)
    (img gt : image) (baseline_thickness : float) (w0 : world) :
  let mean_line_height := (_compute_statistics_line_height page).1.1 in
  let lower := (Py.float_of_Z (shape2 gt).1 * 0.002)%float in
  match Py.int_of_float (Py.max lower (baseline_thickness * mean_line_height)) with
  | inr thickness =>
      draw_baselines_block page text_lines img gt baseline_thickness w0
        = (inr (set_channel 0
                  (polylines (zeros_like_buffer (channel 0 img))
                             ((λ tl, PAGE.list_to_cv2poly (PAGE.baseline tl)) <$> text_lines)
                             false 255 thickness) gt), w0)
      ∧ ∀ t0, Py.int_of_float lower = inr t0 → t0 ≤ thickness
  | inl e =>
      draw_baselines_block page text_lines img gt baseline_thickness w0 = (inl e, w0)
  end.
Proof.
  intros mean_line_height lower.
  unfold draw_baselines_block. subst mean_line_height.
  destruct (_compute_statistics_line_height page) as [[mean sd] med]. cbn [fst].
  unfold absolute_baseline_thickness. fold lower.
  destruct (Py.int_of_float (Py.max lower (baseline_thickness * mean))) as [e | t] eqn:E.
  - reflexivity.
  - split; [reflexivity |].
    intros t0 Ht0. exact (int_of_float_max_ge _ _ _ _ E Ht0).
Qed.

End DatasetBuilderFacts.

Section ResizeRuns.

Import Sim.

Lemma save_and_resize_truncates_witness :
  save_and_resize (Sim.blank 5 16) "out/labels/A_p.png" (Some 45) true (Sim.world_of [])
  = imsave "out/labels/A_p.png" (resize (Sim.blank 5 16) (12, 3) INTER_NEAREST) (Sim.world_of []).
Proof.
  apply (proj2 (save_and_resize_truncates (Sim.blank 5 16) "out/labels/A_p.png" true
                  (Sim.world_of [])) 45 5 16 12 3); vm_compute; done.
Defined.

(** C3 fails as stated: for a 5 x 16 image and a budget of 45 pixels the
    ratio is 0.75 and the products are 12.0 and 3.75; rounding would give
    (12, 4), the code resizes to (12, 3). *)
Lemma save_and_resize_does_not_round :
  ¬ (∃ new_w new_h : Z,
       let ratio := PrimFloat.sqrt (Py.float_of_Z 45 / Py.float_of_Z (5 * 16)) in
       Py.round (Py.float_of_Z 16 * ratio) = inr new_w
       ∧ Py.round (Py.float_of_Z 5 * ratio) = inr new_h
       ∧ save_and_resize (Sim.blank 5 16) "out/labels/A_p.png" (Some 45) true (Sim.world_of [])
         = imsave "out/labels/A_p.png" (resize (Sim.blank 5 16) (new_w, new_h) INTER_NEAREST)
                  (Sim.world_of [])).
Proof.
  intros (new_w & new_h & Hw & Hh & E).
  vm_compute in Hw, Hh. injection Hw as <-. injection Hh as <-.
  apply (f_equal (λ r, files r.2 !! "out/labels/A_p.png")) in E.
  vm_compute in E. discriminate E.
Qed.

(** C4 fails as stated: on a canvas 1100 pixels high whose lines are 5
    pixels high the maximum is 2.2 and the thickness used is 2, which is
    neither that maximum nor at least 0.2% of the canvas height. *)
Lemma baseline_thickness_below_floor :
  let gt := zeros_like (Sim.blank 1100 1) in
  let mean_line_height := (_compute_statistics_line_height (Sim.page_of_heights [5; 5])).1.1 in
  ¬ (∀ t : Z,
       absolute_baseline_thickness gt 0.2 mean_line_height = inr t →
       Py.float_of_Z t = Py.max (Py.float_of_Z 1100 * 0.002) (0.2 * mean_line_height)
       ∧ PrimFloat.leb (Py.float_of_Z 1100 * 0.002) (Py.float_of_Z t) = true).
Proof.
  intros gt mean_line_height Hclaim.
  destruct (Hclaim 2) as [_ Hge]; [vm_compute; reflexivity |].
  vm_compute in Hge. discriminate Hge.
Qed.

End ResizeRuns.

Section MaskRasterizerFacts.

Context `{Cv2Laws} `{Os}.

Lemma same_size_length (a b : buffer) : same_size a b → length a = length b.
Proof.
  intros E. apply (f_equal length) in E. by rewrite !length_fmap in E.
Qed.

Lemma endpoint_radius_circle (d : Z) (b : buffer) center radius color thickness :
  endpoint_radius d (circle b center radius color thickness) = endpoint_radius d b.
Proof.
  unfold endpoint_radius. by rewrite (same_size_length _ _ (circle_size b center radius color thickness)).
Qed.

(** C2, as the code has it: for a text line whose baseline has exactly one
    point, with endpoints enabled, the loop draws both endpoint markers,
    the two of them centered at that point, raises nothing, prints nothing
    and goes on with the remaining lines; the markers of such a line are
    not skipped. *)
Theorem endpoints_of_one_point_baseline (tl : PAGE.TextLine) (p : PAGE.Point)
    (rest : list PAGE.TextLine) (diameter_endpoint radius : Z) (gt_points : buffer)
    (w0 : world) :
  PAGE.baseline tl = [p] →
  endpoint_radius diameter_endpoint gt_points = inr radius →
  draw_endpoints_loop (tl :: rest) diameter_endpoint gt_points w0
  = draw_endpoints_loop rest diameter_endpoint
      (circle (circle gt_points (PAGE.x p, PAGE.y p) radius 255 (-1))
              (PAGE.x p, PAGE.y p) radius 255 (-1)) w0.
Proof.
  intros Hb Hr. cbn [draw_endpoints_loop].
  apply bind_inr.
  unfold draw_endpoints_of_line.
  assert (E1 : attempt IndexError (draw_first_endpoint tl diameter_endpoint gt_points) w0
               = (inr (Some (circle gt_points (PAGE.x p, PAGE.y p) radius 255 (-1))), w0)).
  { unfold attempt, draw_first_endpoint, getitem_first. rewrite Hb. cbn [head].
    unfold mbind, M_bind, mret, M_ret, lift. rewrite Hr. reflexivity. }
  rewrite (bind_inr _ _ _ _ _ E1).
  set (g := circle gt_points (PAGE.x p, PAGE.y p) radius 255 (-1)).
  assert (E2 : attempt IndexError (draw_last_endpoint tl diameter_endpoint g) w0
               = (inr (Some (circle g (PAGE.x p, PAGE.y p) radius 255 (-1))), w0)).
  { unfold attempt, draw_last_endpoint, getitem_last. rewrite Hb. cbn [last].
    unfold mbind, M_bind, mret, M_ret, lift. subst g.
    rewrite endpoint_radius_circle, Hr. reflexivity. }
  rewrite (bind_inr _ _ _ _ _ E2). reflexivity.
Qed.

(** X1: a text line whose baseline is empty is the one whose markers are
    skipped: the [IndexError] is caught, the buffer is left as it was, the
    length 0 is printed and the loop goes on with the remaining lines. *)
Theorem endpoints_of_empty_baseline (tl : PAGE.TextLine) (rest : list PAGE.TextLine)
    (diameter_endpoint : Z) (gt_points : buffer) (w0 : world) :
  PAGE.baseline tl = [] →
  draw_endpoints_loop (tl :: rest) diameter_endpoint gt_points w0
  = draw_endpoints_loop rest diameter_endpoint gt_points
      (World (files w0) (dirs w0) (stdout w0 ++ ["Length of baseline is 0"])).
Proof.
  intros Hb. cbn [draw_endpoints_loop].
  apply bind_inr.
  unfold draw_endpoints_of_line, attempt, draw_first_endpoint, getitem_first.
  rewrite Hb. reflexivity.
Qed.

Lemma zeros_like_shape (img : image) : shape (zeros_like img) = shape img.
Proof.
  unfold shape, zeros_like. rewrite <- list_fmap_compose.
  apply list_fmap_ext. intros _ row _. unfold compose.
  rewrite <- list_fmap_compose. apply list_fmap_ext. intros _ px _.
  unfold compose. apply length_fmap.
Qed.

Lemma zeros_like_zero (img : image) : Forall (Forall (Forall (eq 0))) (zeros_like img).
Proof.
  unfold zeros_like.
  apply Forall_fmap, Forall_true. intros row.
  apply Forall_fmap, Forall_true. intros px.
  apply Forall_fmap, Forall_true. intros v. reflexivity.
Qed.

Lemma label_mask_no_lines (page : PAGE.Page) (img : image)
    (draw_baselines draw_lines draw_endpoints : bool) (baseline_thickness : float)
    (diameter_endpoint : Z) (w0 : world) :
  (tr ← PAGE.text_regions page; PAGE.text_lines tr) = [] →
  label_mask page img draw_baselines draw_lines draw_endpoints baseline_thickness
             diameter_endpoint w0 = (inr (zeros_like img), w0).
Proof.
  intros E. unfold label_mask. rewrite E.
  rewrite bool_decide_eq_true_2 by reflexivity. reflexivity.
Qed.

(** C10: for an image whose layout has no text line in any region, the
    label raster is all zeros and has the dimensions of the source image,
    whatever the three drawing flags; it is the raster that
    [annotate_one_page] hands to [save_and_resize] for the label file. *)
Theorem mask_of_page_without_lines (page : PAGE.Page) (img : image)
    (draw_baselines draw_lines draw_endpoints : bool) (baseline_thickness : float)
    (diameter_endpoint : Z) (w0 : world) :
  (tr ← PAGE.text_regions page; PAGE.text_lines tr) = [] →
  let gt := zeros_like img in
  label_mask page img draw_baselines draw_lines draw_endpoints baseline_thickness
             diameter_endpoint w0 = (inr gt, w0)
  ∧ shape gt = shape img
  ∧ Forall (Forall (Forall (eq 0))) gt
  ∧ ∀ (image_filename output_dir page_filename : string) (size : option Z),
      get_page_filename image_filename w0 = (inr page_filename, w0) →
      files w0 !! page_filename = Some (Xml page) →
      files w0 !! image_filename = Some (Image img) →
      let name := get_image_label_basename image_filename in
      let output_image_path := os_path.join output_dir ["images"; name +:+ ".jpg"] in
      let output_label_path := os_path.join output_dir ["labels"; name +:+ ".png"] in
      annotate_one_page image_filename output_dir size draw_baselines draw_lines
                        draw_endpoints baseline_thickness diameter_endpoint w0
      = (save_and_resize img output_image_path size false;;
         save_and_resize gt output_label_path size true;;
         shutil_copy page_filename (os_path.join output_dir ["gt"; name +:+ ".xml"]);;
         mret (abspath output_image_path, abspath output_label_path)) w0.
Proof.
  intros E gt.
  split; [by apply label_mask_no_lines |].
  split; [apply zeros_like_shape |].
  split; [apply zeros_like_zero |].
  intros image_filename output_dir page_filename size Hpf Hpage Himg name oip olp.
  unfold annotate_one_page.
  rewrite (bind_inr _ _ _ _ _ Hpf).
  assert (Hparse : PAGE_parse_file page_filename w0 = (inr page, w0)).
  { unfold PAGE_parse_file, read_file, mbind, M_bind. rewrite Hpage. reflexivity. }
  rewrite (bind_inr _ _ _ _ _ Hparse).
  assert (Hread : imread image_filename w0 = (inr img, w0)).
  { unfold imread, read_file, mbind, M_bind. rewrite Himg. reflexivity. }
  rewrite (bind_inr _ _ _ _ _ Hread).
  rewrite (bind_inr _ _ _ _ _ (label_mask_no_lines _ _ _ _ _ _ _ _ E)).
  reflexivity.
Qed.

(** ** Missing companion files *)

Lemma get_page_filename_world (image_filename : string) (w0 : world) :
  (get_page_filename image_filename w0).2 = w0.
Proof.
  unfold get_page_filename, os_path.exists_, mbind, M_bind.
  by destruct (_ || _).
Qed.

Lemma annotate_one_page_missing (image_filename output_dir : string) (size : option Z)
    (b l e : bool) (bt : float) (d : Z) (w0 : world) :
  get_page_filename image_filename w0 = (inl FileNotFoundError, w0) →
  annotate_one_page image_filename output_dir size b l e bt d w0
  = (inl FileNotFoundError, w0).
Proof. intros E. unfold annotate_one_page. by apply bind_inl. Qed.

Lemma annotate_all_app (l1 l2 : list string) (output_dir : string) (img_size : option Z)
    (b l : bool) (lt : float) (e : bool) (ct : Z) (acc : list (string * string)) (w0 : world) :
  annotate_all (l1 ++ l2) output_dir img_size b l lt e ct acc w0
  = (acc' ← annotate_all l1 output_dir img_size b l lt e ct acc;
     annotate_all l2 output_dir img_size b l lt e ct acc') w0.
Proof.
  revert acc w0. induction l1 as [| f l1 IH]; intros acc w0; [reflexivity |].
  cbn [app annotate_all]. unfold mbind, M_bind.
  destruct (annotate_one_page f output_dir img_size b l e lt ct w0) as [[ex | [ip lp]] w1].
  - reflexivity.
  - rewrite IH. reflexivity.
Qed.

(** C1, as the code has it: when the companion layout file of one image is
    missing, the [FileNotFoundError] of [get_page_filename] is not caught:
    it ends [cbad_set_generator].  The world is left as the images listed
    before that one made it; the image itself and the images listed after
    it are not processed, and neither classes.txt nor the manifest is
    written. *)
Theorem missing_companion_aborts_generator (input_dir output_dir : string)
    (img_size : option Z) (multilabel draw_baselines draw_lines : bool)
    (line_thickness : float) (draw_endpoints : bool) (circle_thickness : Z)
    (before after : list string) (image_filename : string)
    (tuples : list (string * string)) (w0 w1 w2 : world) :
  glob (input_dir +:+ "/**/*.jp*g") w0 = before ++ image_filename :: after →
  (os.makedirs (os_path.join output_dir ["images"]);;
   os.makedirs (os_path.join output_dir ["labels"]);;
   os.makedirs (os_path.join output_dir ["gt"])) w0 = (inr (), w1) →
  annotate_all before output_dir img_size draw_baselines draw_lines line_thickness
               draw_endpoints circle_thickness [] w1 = (inr tuples, w2) →
  get_page_filename image_filename w2 = (inl FileNotFoundError, w2) →
  cbad_set_generator input_dir output_dir img_size multilabel draw_baselines draw_lines
                     line_thickness draw_endpoints circle_thickness w0
  = (inl FileNotFoundError, w2).
Proof.
  intros Hglob Hdirs Hbefore Hmissing.
  unfold cbad_set_generator.
  unfold mbind at 1, M_bind at 1. rewrite Hglob.
  revert Hdirs. unfold mbind, M_bind.
  destruct (os.makedirs (os_path.join output_dir ["images"]) w0) as [[? | []] wa]; [discriminate |].
  destruct (os.makedirs (os_path.join output_dir ["labels"]) wa) as [[? | []] wb]; [discriminate |].
  destruct (os.makedirs (os_path.join output_dir ["gt"]) wb) as [[? | []] wc]; [discriminate |].
  intros [= ->].
  pose proof (annotate_all_app before (image_filename :: after) output_dir img_size
                draw_baselines draw_lines line_thickness draw_endpoints circle_thickness
                [] w1) as Happ.
  unfold mbind, M_bind in Happ. rewrite Happ, Hbefore.
  cbn [annotate_all].
  erewrite bind_inl; [reflexivity | by apply annotate_one_page_missing].
Qed.

End MaskRasterizerFacts.

(** ** The small implementation meets the interfaces' laws *)

Lemma set_pixel_size (b : buffer) (p : Z * Z) (v : Z) : same_size (Sim.set_pixel b p v) b.
Proof.
  unfold same_size, Sim.set_pixel. destruct p as [px py].
  destruct (_ && _); [| reflexivity].
  generalize (Z.to_nat py) as i. induction b as [| row b IH]; intros [| i]; cbn; try reflexivity.
  - by rewrite length_insert.
  - f_equal. apply IH.
Qed.

Lemma foldl_set_pixel_size (pts : list (Z * Z)) (v : Z) (b : buffer) :
  same_size (foldl (λ b p, Sim.set_pixel b p v) b pts) b.
Proof.
  revert b. induction pts as [| p pts IH]; intros b; [reflexivity |].
  cbn [foldl]. unfold same_size in *. rewrite IH. apply set_pixel_size.
Qed.

Lemma imap_rows_size {A} (f : nat → list A → list A) (b : list (list A)) :
  (∀ i row, length (f i row) = length row) →
  fmap (M := list) length (imap f b) = fmap (M := list) length b.
Proof.
  revert f. induction b as [| row b IH]; intros f Hf; [reflexivity |].
  cbn. rewrite Hf. f_equal. apply IH. intros i r. apply Hf.
Qed.

Lemma disc_size (b : buffer) (center : Z * Z) (radius v : Z) :
  same_size (Sim.disc b center radius v) b.
Proof.
  unfold same_size, Sim.disc. destruct center as [cx cy].
  apply imap_rows_size. intros i row. apply length_imap.
Qed.

#[export] Instance Sim_cv2_laws : Cv2Laws (H := Sim.cv2).
Proof.
  split; cbn.
  - intros. apply foldl_set_pixel_size.
  - intros. apply foldl_set_pixel_size.
  - intros. apply disc_size.
Qed.

Section EndpointRuns.

Import Sim.

Lemma endpoints_of_one_point_baseline_witness :
  draw_endpoints_loop [one_point_line; two_point_line] 20 small_buffer (world_of [])
  = (inr [[0; 0; 0]; [0; 255; 0]; [255; 0; 255]], world_of []).
Proof.
  rewrite (endpoints_of_one_point_baseline one_point_line (point 1 1) [two_point_line]
             20 0 small_buffer (world_of [])); [| reflexivity | vm_compute; reflexivity].
  vm_compute. reflexivity.
Defined.

(** C2 fails as stated: on a 3 x 3 buffer the line whose baseline is the
    single point (1, 1) does not leave the buffer as a skipped line would. *)
Lemma one_point_baseline_not_skipped :
  ¬ (∃ w' : world,
       draw_endpoints_loop [one_point_line] 20 small_buffer (world_of [])
       = draw_endpoints_loop [] 20 small_buffer w').
Proof.
  intros [w' E]. apply (f_equal fst) in E. vm_compute in E. discriminate E.
Qed.

End EndpointRuns.

Section GeneratorRuns.

Import Sim.

Lemma missing_companion_aborts_generator_witness :
  (generate archive).1 = inl FileNotFoundError
  ∧ is_Some (files (generate archive).2 !! "out/labels/A_p3.png")
  ∧ files (generate archive).2 !! "out/set_data.csv" = None.
Proof.
  set (setup := (os.makedirs "out/images";; os.makedirs "out/labels";; os.makedirs "out/gt") archive).
  set (before := annotate_all ["in/A_x/p3.jpg"] "out" (Some 24) true false 0.2 true 20 [] setup.2).
  assert (E : generate archive = (inl FileNotFoundError, before.2)).
  { apply (missing_companion_aborts_generator "in" "out" (Some 24) false true false 0.2 true 20
             ["in/A_x/p3.jpg"] ["in/A_x/p2.jpg"] "in/A_x/p1.jpg"
             [("/cwd/out/images/A_p3.jpg", "/cwd/out/labels/A_p3.png")]
             archive setup.2 before.2); vm_compute; reflexivity. }
  rewrite E. split; [reflexivity |]. split; vm_compute; eauto.
Defined.

(** C1 fails as stated: p1 has no companion file, and p2, listed after it
    and complete, is neither processed nor appended to a manifest. *)
Lemma missing_companion_stops_later_images :
  ¬ (is_Some (files (generate archive).2 !! "out/labels/A_p2.png")
     ∧ ∃ rows, files (generate archive).2 !! "out/set_data.csv" = Some (Csv rows)
               ∧ ["/cwd/out/images/A_p2.jpg"; "/cwd/out/labels/A_p2.png"] ∈ rows).
Proof.
  intros [[f Hf] _]. vm_compute in Hf. discriminate Hf.
Qed.

Lemma mask_of_page_without_lines_witness :
  label_mask (page []) (blank 4 6) true true true 0.2 20 archive
    = (inr (zeros_like (blank 4 6)), archive)
  ∧ files (annotate_one_page "in/A_x/p2.jpg" "out" None true true true 0.2 20 archive).2
      !! "out/labels/A_p2.png"
    = Some (Image (zeros_like (blank 4 6))).
Proof.
  destruct (mask_of_page_without_lines (page []) (blank 4 6) true true true 0.2 20 archive
              eq_refl) as (E1 & _ & _ & E4).
  split; [exact E1 |].
  rewrite (E4 "in/A_x/p2.jpg" "out" "in/A_x/page/p2.xml" None); vm_compute; reflexivity.
Defined.

Lemma baseline_thickness_truncated_witness :
  let img := blank 1100 1 in
  let page := page_of_heights [5; 5] in
  draw_baselines_block page (PAGE.text_regions page ≫= PAGE.text_lines) img (zeros_like img)
                       0.2 (world_of [])
  = (inr (set_channel 0
            (polylines (zeros_like_buffer (channel 0 img))
                       ((λ tl, PAGE.list_to_cv2poly (PAGE.baseline tl))
                          <$> (PAGE.text_regions page ≫= PAGE.text_lines))
                       false 255 2)
            (zeros_like img)), world_of [])
  ∧ 2 ≤ 2.
Proof.
  intros img page.
  pose proof (baseline_thickness_truncated page (PAGE.text_regions page ≫= PAGE.text_lines)
                img (zeros_like img) 0.2 (world_of [])) as T.
  cbv zeta in T.
  assert (E : Py.int_of_float
                (Py.max (Py.float_of_Z (shape2 (zeros_like img)).1 * 0.002)
                        (0.2 * (_compute_statistics_line_height page).1.1)) = inr 2)
    by (vm_compute; reflexivity).
  rewrite E in T. destruct T as [T1 T2].
  split; [exact T1 |]. apply T2. vm_compute. reflexivity.
Defined.
End GeneratorRuns.

(** ** SplitSampler *)

Lemma zip_seq_lookup {A} (k : nat) (rows : list A) (i : nat) :
  zip (seq k (length rows)) rows !! i = (λ row, ((k + i)%nat, row)) <$> rows !! i.
Proof.
  revert k i. induction rows as [| row rows IH]; intros k [| i]; cbn; try reflexivity.
  - by rewrite Nat.add_0_r.
  - rewrite IH. by replace (S k + i)%nat with (k + S i)%nat by lia.
Qed.

Lemma zip_seq_find {A} (k : nat) (rows : list A) (l : nat) :
  (k ≤ l)%nat →
  head (filter (λ r : nat * A, r.1 = l) (zip (seq k (length rows)) rows))
  = zip (seq k (length rows)) rows !! (l - k)%nat.
Proof.
  revert k. induction rows as [| row rows IH]; intros k Hk; [reflexivity |].
  cbn [length seq zip zip_with]. rewrite filter_cons. cbn [fst].
  destruct (decide (k = l)) as [-> | Hne].
  - by rewrite Nat.sub_diag.
  - rewrite IH by lia. replace (l - k)%nat with (S (l - S k)) by lia. reflexivity.
Qed.

Lemma omap_lookup_seq {A} (df : list A) :
  omap (λ i, df !! i) (seq 0 (length df)) = df.
Proof.
  induction df as [| a df IH] using rev_ind; [reflexivity |].
  rewrite length_app, Nat.add_1_r, seq_S, omap_app. cbn.
  rewrite lookup_app_r, Nat.sub_diag by lia. cbn.
  f_equal. rewrite <- IH at 2.
  apply list_omap_ext, Forall_Forall2_diag, Forall_forall.
  intros i Hi%elem_of_seq. apply lookup_app_l. lia.
Qed.

Lemma omap_lookup_index {A} (rows : list A) (locs : list nat) :
  Forall (λ i, i < length rows)%nat locs →
  (omap (λ i, zip (seq 0 (length rows)) rows !! i) locs).*1 = locs.
Proof.
  induction 1 as [| i locs Hi _ IH]; [reflexivity |].
  cbn [omap list_omap]. rewrite zip_seq_lookup.
  destruct (lookup_lt_is_Some_2 rows i Hi) as [row ->]. cbn. by rewrite IH.
Qed.

Section SplitSamplerFacts.

Context `{PandasLaws}.

Lemma split_frames_lookup (rows : list (list string)) :
  let df_data := zip (seq 0 (length rows)) rows in
  let locs := sample_locs 0.15 42 (length rows) in
  let indexes := merge_sort le (filter (λ i, i ∉ locs) (seq 0 (length rows))) in
  split_frames df_data
  = (omap (λ i, df_data !! i) locs, omap (λ i, df_data !! i) indexes)
  ∧ index (omap (λ i, df_data !! i) locs) = locs
  ∧ index (omap (λ i, df_data !! i) indexes) = indexes
  ∧ locs ++ indexes ≡ₚ seq 0 (length rows).
Proof.
  intros df_data locs indexes.
  assert (Hlen : length df_data = length rows).
  { unfold df_data. rewrite length_zip, length_seq. lia. }
  assert (Hlocs : Forall (λ i, i < length rows)%nat locs).
  { apply Forall_forall. intros i Hi. by eapply sample_locs_bound. }
  assert (Hidx : Forall (λ i, i < length rows)%nat indexes).
  { apply Forall_forall. intros i Hi. unfold indexes in Hi.
    rewrite merge_sort_Permutation in Hi.
    apply list_elem_of_filter in Hi as [_ Hi%elem_of_seq]. lia. }
  assert (Heval : index (omap (λ i, df_data !! i) locs) = locs)
    by (apply omap_lookup_index, Hlocs).
  split; [| split; [exact Heval | split; [by apply omap_lookup_index |]]].
  - unfold split_frames, sample, loc, difference. rewrite Hlen. fold locs.
    rewrite Heval.
    replace (index df_data) with (seq 0 (length rows))
      by (unfold index, df_data; rewrite fst_zip; [done | rewrite length_seq; lia]).
    fold indexes. f_equal.
    apply list_omap_ext, Forall_Forall2_diag, Forall_forall.
    intros l _. unfold df_data. rewrite zip_seq_find by lia. by rewrite Nat.sub_0_r.
  - unfold indexes. rewrite merge_sort_Permutation.
    apply NoDup_Permutation.
    + apply NoDup_app. split; [apply sample_locs_NoDup |]. split.
      * intros i Hi [Hni _]%list_elem_of_filter. done.
      * apply NoDup_filter, NoDup_seq.
    + apply NoDup_seq.
    + intros i. rewrite elem_of_app, list_elem_of_filter, elem_of_seq. split.
      * intros [Hi | [_ Hi]]; [| lia].
        rewrite Forall_forall in Hlocs. specialize (Hlocs i Hi). lia.
      * intros Hi. destruct (decide (i ∈ locs)); [by left | by right].
Qed.

(** C9: for a manifest of N rows the evaluation frame and the training
    frame have no row index in common, their sizes add up to N, a row is
    in the manifest exactly when it is in one of the two, and together
    they are a permutation of the indexed manifest; the two files written
    depend on the rows of the manifest only, so the same manifest always
    gives the same partition. *)
Theorem split_partitions_manifest (rows : list (list string)) :
  let df_data := zip (seq 0 (length rows)) rows in
  let df_eval := (split_frames df_data).1 in
  let df_train := (split_frames df_data).2 in
  index df_eval ## index df_train
  ∧ (length df_eval + length df_train = length rows)%nat
  ∧ (∀ row, row ∈ rows ↔ row ∈ df_eval.*2 ∨ row ∈ df_train.*2)
  ∧ df_eval ++ df_train ≡ₚ df_data
  ∧ ∀ (csv_filename : string) (w : world),
      files w !! csv_filename = Some (Csv rows) →
      let saving_dir := os_path.dirname csv_filename in
      split_set_for_eval csv_filename w
      = (inr (),
         World (<[os_path.join saving_dir ["train_data.csv"] := Csv df_train.*2]>
                  (<[os_path.join saving_dir ["eval_data.csv"] := Csv df_eval.*2]>
                     (files w)))
               (dirs w) (stdout w)).
Proof.
  intros df_data df_eval df_train.
  destruct (split_frames_lookup rows) as (Hsplit & Heval & Htrain & Hperm).
  fold df_data in Hsplit, Heval, Htrain.
  set (locs := sample_locs 0.15 42 (length rows)) in *.
  set (indexes := merge_sort le (filter (λ i, i ∉ locs) (seq 0 (length rows)))) in *.
  assert (Ee : df_eval = omap (λ i, df_data !! i) locs)
    by (unfold df_eval; by rewrite Hsplit).
  assert (Et : df_train = omap (λ i, df_data !! i) indexes)
    by (unfold df_train; by rewrite Hsplit).
  assert (Hlen : length df_data = length rows).
  { unfold df_data. rewrite length_zip, length_seq. lia. }
  assert (Hall : df_eval ++ df_train ≡ₚ df_data).
  { rewrite Ee, Et, <- omap_app, Hperm, <- Hlen. by rewrite omap_lookup_seq. }
  assert (Hnd : NoDup (locs ++ indexes)) by (rewrite Hperm; apply NoDup_seq).
  split; [| split; [| split; [| split; [exact Hall |]]]].
  - rewrite Ee, Et, Heval, Htrain. apply NoDup_app in Hnd as (_ & Hdisj & _).
    intros i Hi Hi'. exact (Hdisj i Hi Hi').
  - rewrite <- length_app, (Permutation_length Hall). exact Hlen.
  - intros row. rewrite <- elem_of_app, <- fmap_app, Hall.
    unfold df_data. rewrite snd_zip; [done | rewrite length_seq; lia].
  - intros csv_filename w Hcsv saving_dir.
    unfold split_set_for_eval.
    assert (Hread : pd_read_csv csv_filename w = (inr df_data, w)).
    { unfold pd_read_csv, read_file, mbind, M_bind. rewrite Hcsv. reflexivity. }
    rewrite (bind_inr _ _ _ _ _ Hread).
    fold saving_dir. unfold df_eval, df_train.
    destruct (split_frames df_data) as [e t]. reflexivity.
Qed.

End SplitSamplerFacts.

#[export] Instance Sim_pandas_laws : PandasLaws (H := Sim.pandas).
Proof.
  split; cbn; intros frac random_state N.
  - destruct (Py.round _); [constructor |].
    apply (sublist_NoDup _ (reverse (seq 0 N))); [| apply sublist_take].
    rewrite reverse_Permutation. apply NoDup_seq.
  - intros i. destruct (Py.round _); [by intros ?%elem_of_nil |].
    intros Hi%elem_of_take. destruct Hi as (j & Hi & _).
    apply list_elem_of_lookup_2, elem_of_reverse, elem_of_seq in Hi. lia.
Qed.

Section SplitRuns.

Import Sim.

Lemma split_partitions_manifest_witness :
  (split_frames (zip (seq 0 10) manifest)).1.*1 = [9; 8]%nat
  ∧ (split_frames (zip (seq 0 10) manifest)).2.*1 = [0; 1; 2; 3; 4; 5; 6; 7]%nat
  ∧ index (split_frames (zip (seq 0 10) manifest)).1
    ## index (split_frames (zip (seq 0 10) manifest)).2.
Proof.
  split; [vm_compute; reflexivity |]. split; [vm_compute; reflexivity |].
  exact (proj1 (split_partitions_manifest (H0 := Sim_pandas_laws) manifest)).
Defined.

End SplitRuns.

(** * Further properties of the code *)

(** ** MaskRasterizer *)

Section MaskFacts.

Context `{Cv2Laws} `{Os}.

(** X2: for a text line with a non-empty baseline the loop draws one filled
    circle at the first point of the baseline and one at its last point,
    both of the radius computed from the height of the buffer, and goes on
    with the remaining lines. *)
Theorem endpoints_at_first_and_last_point (tl : PAGE.TextLine) (first last_ : PAGE.Point)
    (rest : list PAGE.TextLine) (diameter_endpoint radius : Z) (gt_points : buffer)
    (w0 : world) :
  head (PAGE.baseline tl) = Some first →
  last (PAGE.baseline tl) = Some last_ →
  endpoint_radius diameter_endpoint gt_points = inr radius →
  draw_endpoints_loop (tl :: rest) diameter_endpoint gt_points w0
  = draw_endpoints_loop rest diameter_endpoint
      (circle (circle gt_points (PAGE.x first, PAGE.y first) radius 255 (-1))
              (PAGE.x last_, PAGE.y last_) radius 255 (-1)) w0.
Proof.
  intros Hf Hl Hr. cbn [draw_endpoints_loop].
  apply bind_inr.
  unfold draw_endpoints_of_line.
  assert (E1 : attempt IndexError (draw_first_endpoint tl diameter_endpoint gt_points) w0
               = (inr (Some (circle gt_points (PAGE.x first, PAGE.y first) radius 255 (-1))), w0)).
  { unfold attempt, draw_first_endpoint, getitem_first. rewrite Hf.
    unfold mbind, M_bind, mret, M_ret, lift. rewrite Hr. reflexivity. }
  rewrite (bind_inr _ _ _ _ _ E1).
  set (g := circle gt_points (PAGE.x first, PAGE.y first) radius 255 (-1)).
  assert (E2 : attempt IndexError (draw_last_endpoint tl diameter_endpoint g) w0
               = (inr (Some (circle g (PAGE.x last_, PAGE.y last_) radius 255 (-1))), w0)).
  { unfold attempt, draw_last_endpoint, getitem_last. rewrite Hl.
    unfold mbind, M_bind, mret, M_ret, lift. subst g.
    rewrite endpoint_radius_circle, Hr. reflexivity. }
  rewrite (bind_inr _ _ _ _ _ E2). reflexivity.
Qed.

End MaskFacts.

(** ** Arrays *)

(** The row lengths of an image or buffer. *)
Lemma widths_of_shape (a b : image) :
  shape a = shape b → fmap (M := list) length a = fmap (M := list) length b.
Proof.
  unfold shape. intros E. apply (f_equal (fmap (M := list) length)) in E.
  rewrite <- !list_fmap_compose in E.
  etrans; [| etrans; [exact E |]]; apply list_fmap_ext; intros; unfold compose;
    by rewrite length_fmap.
Qed.

Lemma widths_channel (k : nat) (img : image) :
  fmap (M := list) length (channel k img) = fmap (M := list) length img.
Proof.
  unfold channel. rewrite <- list_fmap_compose. apply list_fmap_ext.
  intros _ row _. unfold compose. apply length_fmap.
Qed.

Lemma widths_zeros_like_buffer (b : buffer) : same_size (zeros_like_buffer b) b.
Proof.
  unfold same_size, zeros_like_buffer. rewrite <- list_fmap_compose. apply list_fmap_ext.
  intros _ row _. unfold compose. apply length_fmap.
Qed.

Lemma set_channel_shape (k : nat) (b : buffer) (gt : image) :
  fmap (M := list) length b = fmap (M := list) length gt →
  shape (set_channel k b gt) = shape gt.
Proof.
  unfold shape, set_channel. revert b.
  induction gt as [| grow gt IH]; intros [| brow b] E; try done.
  cbn in *. injection E as Hrow Hrest. f_equal; [| by apply IH].
  clear IH Hrest. revert brow Hrow.
  induction grow as [| px grow IH]; intros [| v brow] E; try done.
  cbn in *. injection E as E. rewrite length_insert. f_equal. by apply IH.
Qed.

Lemma channel_set_channel_ne (j k : nat) (b : buffer) (gt : image) :
  j ≠ k →
  fmap (M := list) length b = fmap (M := list) length gt →
  channel j (set_channel k b gt) = channel j gt.
Proof.
  intros Hjk. unfold channel, set_channel. revert b.
  induction gt as [| grow gt IH]; intros [| brow b] E; try done.
  cbn in *. injection E as Hrow Hrest. f_equal; [| by apply IH].
  clear IH Hrest. revert brow Hrow.
  induction grow as [| px grow IH]; intros [| v brow] E; try done.
  cbn in *. injection E as E. rewrite list_lookup_insert_ne by done. f_equal. by apply IH.
Qed.

Lemma channel_set_channel_eq (k : nat) (b : buffer) (gt : image) :
  Forall (Forall (λ px : list Z, (k < length px)%nat)) gt →
  fmap (M := list) length b = fmap (M := list) length gt →
  channel k (set_channel k b gt) = b.
Proof.
  unfold channel, set_channel. intros Hpx. revert b.
  induction Hpx as [| grow gt Hrow _ IH]; intros [| brow b] E; try done.
  cbn in *. injection E as Hlen Hrest. f_equal; [| by apply IH].
  clear IH Hrest. revert brow Hlen.
  induction Hrow as [| px grow Hk _ IH]; intros [| v brow] E; try done.
  cbn in *. injection E as E. rewrite list_lookup_insert_eq by done. cbn. f_equal. by apply IH.
Qed.

Section MaskChannels.

Context `{Cv2Laws} `{Os}.

Lemma draw_endpoints_of_line_size (tl : PAGE.TextLine) (d : Z) (b b' : buffer) (w w' : world) :
  draw_endpoints_of_line tl d b w = (inr b', w') → same_size b' b.
Proof.
  unfold draw_endpoints_of_line, attempt, draw_first_endpoint, draw_last_endpoint,
    getitem_first, getitem_last, print, raise, lift, mbind, M_bind, mret, M_ret.
  unfold same_size.
  repeat case_match; intros; simplify_eq; try reflexivity;
    rewrite ?circle_size; reflexivity.
Qed.

Lemma draw_endpoints_loop_size (tls : list PAGE.TextLine) (d : Z) (b b' : buffer)
    (w w' : world) :
  draw_endpoints_loop tls d b w = (inr b', w') → same_size b' b.
Proof.
  revert b w. induction tls as [| tl tls IH]; intros b w.
  - intros [= <- <-]. reflexivity.
  - cbn [draw_endpoints_loop]. unfold mbind, M_bind.
    destruct (draw_endpoints_of_line tl d b w) as [[e | b1] w1] eqn:E1; [discriminate |].
    intros E2. apply IH in E2. apply draw_endpoints_of_line_size in E1.
    unfold same_size in *. congruence.
Qed.

Lemma fillPoly_fold_size (tls : list PAGE.TextLine) (b : buffer) :
  same_size (foldl (λ gt_lines tl,
                      fillPoly gt_lines [PAGE.list_to_cv2poly (PAGE.coords tl)] 255) b tls) b.
Proof.
  revert b. induction tls as [| tl tls IH]; intros b; [reflexivity |].
  cbn [foldl]. unfold same_size in *. rewrite IH. apply fillPoly_size.
Qed.

Lemma block_buffer_widths (img gt : image) (b : buffer) :
  shape gt = shape img →
  same_size b (zeros_like_buffer (channel 0 img)) →
  fmap (M := list) length b = fmap (M := list) length gt.
Proof.
  intros Hs Hb. unfold same_size in Hb.
  rewrite Hb, widths_zeros_like_buffer, widths_channel. symmetry. by apply widths_of_shape.
Qed.

Lemma draw_baselines_block_channels (page : PAGE.Page) (text_lines : list PAGE.TextLine)
    (img gt gt' : image) (baseline_thickness : float) (w w' : world) :
  shape gt = shape img →
  draw_baselines_block page text_lines img gt baseline_thickness w = (inr gt', w') →
  shape gt' = shape img ∧ channel 1 gt' = channel 1 gt ∧ channel 2 gt' = channel 2 gt.
Proof.
  intros Hs. unfold draw_baselines_block.
  destruct (_compute_statistics_line_height page) as [[mean sd] med].
  unfold mbind, M_bind, lift, mret, M_ret.
  destruct (absolute_baseline_thickness gt baseline_thickness mean) as [e | t];
    [discriminate |].
  intros [= <- <-].
  match goal with |- context [set_channel _ ?b gt] =>
    assert (Hw : fmap (M := list) length b = fmap (M := list) length gt)
      by (apply (block_buffer_widths img); [exact Hs | apply polylines_size])
  end.
  change (Py.argmax DRAWING_COLOR_BASELINES) with 0%nat.
  rewrite set_channel_shape, !channel_set_channel_ne by (done || exact Hw). done.
Qed.

Lemma draw_lines_block_channels (text_lines : list PAGE.TextLine)
    (img gt gt' : image) (w w' : world) :
  shape gt = shape img →
  draw_lines_block text_lines img gt w = (inr gt', w') →
  shape gt' = shape img ∧ channel 0 gt' = channel 0 gt ∧ channel 2 gt' = channel 2 gt.
Proof.
  intros Hs. unfold draw_lines_block, mret, M_ret. intros [= <- <-].
  match goal with |- context [set_channel _ ?b gt] =>
    assert (Hw : fmap (M := list) length b = fmap (M := list) length gt)
      by (apply (block_buffer_widths img); [exact Hs | apply fillPoly_fold_size])
  end.
  change (Py.argmax DRAWING_COLOR_LINES) with 1%nat.
  rewrite set_channel_shape, !channel_set_channel_ne by (done || exact Hw). done.
Qed.

Lemma draw_endpoints_block_channels (text_lines : list PAGE.TextLine)
    (img gt gt' : image) (diameter_endpoint : Z) (w w' : world) :
  shape gt = shape img →
  draw_endpoints_block text_lines img gt diameter_endpoint w = (inr gt', w') →
  shape gt' = shape img ∧ channel 0 gt' = channel 0 gt ∧ channel 1 gt' = channel 1 gt.
Proof.
  intros Hs. unfold draw_endpoints_block, mbind, M_bind, mret, M_ret.
  destruct (draw_endpoints_loop _ _ _ _) as [[e | b] w1] eqn:E; [discriminate |].
  intros [= <- <-].
  assert (Hw := block_buffer_widths img gt _ Hs (draw_endpoints_loop_size _ _ _ _ _ _ E)).
  change (Py.argmax DRAWING_COLOR_POINTS) with 2%nat.
  rewrite set_channel_shape, !channel_set_channel_ne by (done || exact Hw). done.
Qed.

(** X3: each drawing block writes the channel of its own color and leaves the
    two other channels of the mask as they were: baselines keep channels 1
    and 2, outlines keep channels 0 and 2, endpoints keep channels 0 and
    1. *)
Theorem blocks_write_their_own_channel (page : PAGE.Page) (text_lines : list PAGE.TextLine)
    (img gt gt' : image) (baseline_thickness : float) (diameter_endpoint : Z)
    (w w' : world) :
  shape gt = shape img →
  (draw_baselines_block page text_lines img gt baseline_thickness w = (inr gt', w') →
     channel 1 gt' = channel 1 gt ∧ channel 2 gt' = channel 2 gt)
  ∧ (draw_lines_block text_lines img gt w = (inr gt', w') →
     channel 0 gt' = channel 0 gt ∧ channel 2 gt' = channel 2 gt)
  ∧ (draw_endpoints_block text_lines img gt diameter_endpoint w = (inr gt', w') →
     channel 0 gt' = channel 0 gt ∧ channel 1 gt' = channel 1 gt).
Proof.
  intros Hs. split; [| split]; intros E.
  - by destruct (draw_baselines_block_channels _ _ _ _ _ _ _ _ Hs E) as (_ & ? & ?).
  - by destruct (draw_lines_block_channels _ _ _ _ _ _ Hs E) as (_ & ? & ?).
  - by destruct (draw_endpoints_block_channels _ _ _ _ _ _ _ Hs E) as (_ & ? & ?).
Qed.

(** X4: whatever is drawn, a label mask that is produced has the dimensions of
    the source image, pixel by pixel. *)
Theorem label_mask_keeps_shape (page : PAGE.Page) (img gt : image)
    (draw_baselines draw_lines draw_endpoints : bool) (baseline_thickness : float)
    (diameter_endpoint : Z) (w w' : world) :
  label_mask page img draw_baselines draw_lines draw_endpoints baseline_thickness
             diameter_endpoint w = (inr gt, w') →
  shape gt = shape img.
Proof.
  unfold label_mask. case_bool_decide.
  - intros [= <- <-]. apply zeros_like_shape.
  - set (tls := tr ← PAGE.text_regions page; PAGE.text_lines tr).
    unfold mbind at 1 2 3, M_bind at 1 2 3.
    pose proof (zeros_like_shape img) as H0s.
    assert (Hb : ∀ g g1 w1 w2, shape g = shape img →
              (if draw_baselines then draw_baselines_block page tls img g baseline_thickness
               else mret g) w1 = (inr g1, w2) → shape g1 = shape img).
    { intros g g1 w1 w2 Hg. destruct draw_baselines.
      - intros E. exact (proj1 (draw_baselines_block_channels _ _ _ _ _ _ _ _ Hg E)).
      - by intros [= <- <-]. }
    assert (Hl : ∀ g g1 w1 w2, shape g = shape img →
              (if draw_lines then draw_lines_block tls img g else mret g) w1 = (inr g1, w2) →
              shape g1 = shape img).
    { intros g g1 w1 w2 Hg. destruct draw_lines.
      - intros E. exact (proj1 (draw_lines_block_channels _ _ _ _ _ _ Hg E)).
      - by intros [= <- <-]. }
    assert (He : ∀ g g1 w1 w2, shape g = shape img →
              (if draw_endpoints then draw_endpoints_block tls img g diameter_endpoint
               else mret g) w1 = (inr g1, w2) → shape g1 = shape img).
    { intros g g1 w1 w2 Hg. destruct draw_endpoints.
      - intros E. exact (proj1 (draw_endpoints_block_channels _ _ _ _ _ _ _ Hg E)).
      - by intros [= <- <-]. }
    destruct ((if draw_baselines
               then draw_baselines_block page tls img (zeros_like img) baseline_thickness
               else mret (zeros_like img)) w) as [[e1 | g1] w1] eqn:E1; [discriminate |].
    destruct ((if draw_lines then draw_lines_block tls img g1 else mret g1) w1)
      as [[e2 | g2] w2] eqn:E2; [discriminate |].
    destruct ((if draw_endpoints then draw_endpoints_block tls img g2 diameter_endpoint
               else mret g2) w2) as [[e3 | g3] w3] eqn:E3; [discriminate |].
    intros [= <- <-].
    eapply He; [| exact E3]. eapply Hl; [| exact E2]. eapply Hb; [| exact E1]. exact H0s.
Qed.

End MaskChannels.

(** ** RobustStatistics, continued *)

Lemma mul_nan_r (x : float) : (x * nan)%float = nan.
Proof.
  apply Prim2SF_eq. rewrite mul_spec.
  change (Prim2SF nan) with S754_nan.
  unfold SF64mul, SFmul. by destruct (Prim2SF x).
Qed.

Lemma ltb_nan_r (x : float) : PrimFloat.ltb x nan = false.
Proof.
  rewrite ltb_spec. change (Prim2SF nan) with S754_nan.
  unfold SFltb, SFcompare. by destruct (Prim2SF x).
Qed.

Lemma min_le_max (l : list Z) : Np.min l ≤ Np.max l.
Proof.
  unfold Np.min, Np.max. destruct l as [| a l]; [done |]. cbn [head default foldr].
  etrans; [apply Z.le_min_l | apply Z.le_max_l].
Qed.

(** X5: the sample of line heights has one entry for every text line that has
    outline points, lines without outline points being left out, and no
    entry is negative. *)
Theorem line_heights_nonnegative (page_class : PAGE.Page) :
  Forall (λ h, 0 ≤ h) (line_heights page_class)
  ∧ (length (line_heights page_class)
     = length (filter (λ tl, PAGE.coords tl ≠ [])
                      (tr ← PAGE.text_regions page_class; PAGE.text_lines tr)))%nat.
Proof.
  unfold line_heights. split.
  - apply Forall_fmap, Forall_forall. intros ys _. cbn.
    pose proof (min_le_max ys). lia.
  - rewrite length_fmap.
    induction (PAGE.text_regions page_class) as [| tr trs IH]; [reflexivity |].
    cbn [mbind list_bind] in *. rewrite !length_app, filter_app, length_app, IH. f_equal.
    clear IH. induction (PAGE.text_lines tr) as [| tl tls IH]; [reflexivity |].
    cbn [mbind list_bind]. rewrite length_app, IH.
    rewrite (filter_cons (λ tl, PAGE.coords tl ≠ [])).
    case_bool_decide; case_decide; done.
Qed.

(** X6: when no text line has outline points the sample is empty, the three
    statistics are NaN, and the baseline thickness falls back to
    int(canvas_height * 0.002): the builtin max keeps its first argument
    when the second is NaN. *)
Theorem thickness_without_outlines (page_class : PAGE.Page) (gt : image)
    (baseline_thickness : float) :
  line_heights page_class = [] →
  _compute_statistics_line_height page_class = (nan, nan, nan)
  ∧ absolute_baseline_thickness gt baseline_thickness
      (_compute_statistics_line_height page_class).1.1
    = Py.int_of_float (Py.float_of_Z (shape2 gt).1 * 0.002).
Proof.
  intros E.
  assert (Hs : _compute_statistics_line_height page_class = (nan, nan, nan)).
  { unfold _compute_statistics_line_height. rewrite E. reflexivity. }
  split; [exact Hs |]. rewrite Hs. cbn [fst].
  unfold absolute_baseline_thickness, Py.max.
  by rewrite mul_nan_r, ltb_nan_r.
Qed.

(** X7: [_is_outlier] returns one flag per observation, and the values kept by
    the mask are a sublist of the sample: rejection removes values, it
    neither adds nor reorders them. *)
Theorem outlier_rejection_only_removes (points : list Z) (thresh : float) :
  length (_is_outlier points thresh) = length points
  ∧ Np.select_not points (_is_outlier points thresh) `sublist_of` points.
Proof.
  split.
  - unfold _is_outlier. by rewrite !length_fmap.
  - unfold Np.select_not. generalize (_is_outlier points thresh) as mask.
    induction points as [| p points IH]; intros [| m mask];
      cbn [zip zip_with]; try apply sublist_nil_l.
    rewrite filter_cons. cbn [snd]. destruct m; cbn [negb].
    + rewrite decide_False by (intros []). apply sublist_cons, IH.
    + rewrite decide_True by done. cbn. apply sublist_skip, IH.
Qed.

(** ** ClassEncoder, continued *)

(** X8: a color is a row of the class table exactly when each of its
    components is 0, or 255 with the channel of that component enabled: the
    table holds the colors a mask pixel can take, and no other. *)
Theorem classes_are_the_producible_colors (draw_baselines draw_lines draw_endpoints : bool)
    (r g b : Z) :
  (r, g, b) ∈ classes draw_baselines draw_lines draw_endpoints
  ↔ (r = 0 ∨ r = 255 ∧ draw_baselines = true)
    ∧ (g = 0 ∨ g = 255 ∧ draw_lines = true)
    ∧ (b = 0 ∨ b = 255 ∧ draw_endpoints = true).
Proof.
  destruct draw_baselines, draw_lines, draw_endpoints; cbn;
    rewrite ?elem_of_cons, elem_of_nil;
    (split;
     [ intros Hin;
       repeat (destruct Hin as [Hin | Hin]; [injection Hin as -> -> ->; tauto |]);
       destruct Hin
     | intros ([-> | [-> Hr]] & [-> | [-> Hg]] & [-> | [-> Hb]]); try discriminate;
       repeat first [left; reflexivity | right] ]).
Qed.

(** X9: the rows of the class table are pairwise distinct, with or without the
    multilabel columns, and there are 2^k of them for k enabled channels. *)
Theorem classes_distinct (draw_baselines draw_lines draw_endpoints multilabel : bool) :
  NoDup (final_classes multilabel (classes draw_baselines draw_lines draw_endpoints))
  ∧ length (classes draw_baselines draw_lines draw_endpoints)
    = (2 ^ (length (filter (λ b : bool, b = true)
                           [draw_baselines; draw_lines; draw_endpoints])))%nat.
Proof.
  destruct draw_baselines, draw_lines, draw_endpoints, multilabel;
    (split; [refine (bool_decide_unpack _ _); vm_compute; exact I | reflexivity]).
Qed.

(** ** Strings and paths *)

Lemma to_list_app (a b : string) : Str.to_list (a +:+ b) = Str.to_list a ++ Str.to_list b.
Proof.
  induction a as [| c a IH]; [reflexivity |].
  change (c :: Str.to_list (a +:+ b) = c :: (Str.to_list a ++ Str.to_list b)).
  by rewrite IH.
Qed.

Lemma of_to_list (s : string) : Str.of_list (Str.to_list s) = s.
Proof. apply String.string_of_list_ascii_of_string. Qed.

Lemma of_list_app (a b : list Ascii.ascii) :
  Str.of_list (a ++ b) = Str.of_list a +:+ Str.of_list b.
Proof.
  induction a as [| c a IH]; [reflexivity |].
  change (String c (Str.of_list (a ++ b)) = String c (Str.of_list a +:+ Str.of_list b)).
  by rewrite IH.
Qed.

Lemma take_until_app (c : Ascii.ascii) (l r : list Ascii.ascii) :
  c ∉ l → Str.take_until c (l ++ c :: r) = l.
Proof.
  induction l as [| a l IH]; intros Hc; cbn.
  - by rewrite Ascii.eqb_refl.
  - apply not_elem_of_cons in Hc as [Hne Hc].
    destruct (Ascii.eqb_spec a c); [congruence |]. by rewrite IH.
Qed.

Lemma take_until_all (c : Ascii.ascii) (l : list Ascii.ascii) :
  c ∉ l → Str.take_until c l = l.
Proof.
  induction l as [| a l IH]; intros Hc; [reflexivity |]. cbn.
  apply not_elem_of_cons in Hc as [Hne Hc].
  destruct (Ascii.eqb_spec a c); [congruence |]. by rewrite IH.
Qed.

Lemma drop_until_app (c : Ascii.ascii) (l r : list Ascii.ascii) :
  c ∉ l → Str.drop_until c (l ++ c :: r) = c :: r.
Proof.
  induction l as [| a l IH]; intros Hc; cbn.
  - by rewrite Ascii.eqb_refl.
  - apply not_elem_of_cons in Hc as [Hne Hc].
    destruct (Ascii.eqb_spec a c); [congruence |]. by rewrite IH.
Qed.

Lemma endswith_sep_to_list (s : string) :
  Str.endswith_sep s = false → s ≠ "" →
  ∃ a l, reverse (Str.to_list s) = a :: l ∧ a ≠ Str.sep.
Proof.
  unfold Str.endswith_sep. intros He Hs.
  destruct (reverse (Str.to_list s)) as [| a l] eqn:E.
  - exfalso. apply Hs. rewrite <- (of_to_list s).
    apply (f_equal reverse) in E. rewrite reverse_involutive in E. by rewrite E.
  - exists a, l. split; [done |]. by destruct (Ascii.eqb_spec a Str.sep).
Qed.

Lemma split_dir_base (dir base : string) :
  dir ≠ "" → Str.endswith_sep dir = false → Str.sep ∉ Str.to_list base →
  os_path.split (dir +:+ "/" +:+ base) = (dir, base).
Proof.
  intros Hd He Hb. unfold os_path.split.
  destruct (endswith_sep_to_list dir He Hd) as (a & l & Hr & Ha).
  rewrite !to_list_app, !reverse_app. cbn [Str.to_list String.list_ascii_of_string].
  rewrite reverse_cons, reverse_nil. cbn [app]. rewrite <- app_assoc. cbn [app].
  change "/"%char with Str.sep.
  rewrite take_until_app, drop_until_app by (by rewrite elem_of_reverse).
  rewrite reverse_involutive, of_to_list.
  cbn [Str.lstrip]. rewrite Ascii.eqb_refl. rewrite Hr. cbn [Str.lstrip].
  destruct (Ascii.eqb_spec a Str.sep); [done |].
  rewrite <- Hr, reverse_involutive, of_to_list. reflexivity.
Qed.

Lemma endswith_sep_app (a b : string) (c : Ascii.ascii) :
  Str.endswith_sep (a +:+ b +:+ String c "") = Ascii.eqb c Str.sep.
Proof.
  unfold Str.endswith_sep. rewrite !to_list_app, !reverse_app. reflexivity.
Qed.

Lemma append_empty (a b : string) : a +:+ b = "" → a = "".
Proof. by destruct a. Qed.

Lemma append_assoc (a b c : string) : (a +:+ b) +:+ c = a +:+ (b +:+ c).
Proof.
  induction a as [| x a IH]; [reflexivity |].
  change (String x ((a +:+ b) +:+ c) = String x (a +:+ (b +:+ c))). by rewrite IH.
Qed.

Lemma join_one (path b : string) :
  path ≠ "" → Str.endswith_sep path = false → Str.startswith_sep b = false →
  os_path.join path [b] = path +:+ "/" +:+ b.
Proof.
  intros Hp He Hb. unfold os_path.join. cbn [foldl].
  rewrite Hb, He, bool_decide_eq_false_2 by done. reflexivity.
Qed.

Lemma join_cons (path b : string) (rest : list string) :
  os_path.join path (b :: rest) = os_path.join (os_path.join path [b]) rest.
Proof. reflexivity. Qed.

Lemma join_page (dir name : string) :
  dir ≠ "" → Str.endswith_sep dir = false → Str.startswith_sep name = false →
  os_path.join dir ["page"; name] = dir +:+ "/page/" +:+ name.
Proof.
  intros Hd He Hn. rewrite join_cons, (join_one dir "page") by done.
  rewrite join_one; [| | | exact Hn].
  - rewrite !append_assoc. reflexivity.
  - intros E. by apply append_empty in E.
  - change (dir +:+ "/" +:+ "page") with (dir +:+ "/pag" +:+ String "e"%char "").
    by rewrite endswith_sep_app.
Qed.

Lemma length_to_list (s : string) : length (Str.to_list s) = String.length s.
Proof. induction s as [| c s IH]; [reflexivity |]. cbn. by rewrite <- IH. Qed.

Lemma drop_last_app (a b : string) (n : nat) :
  (n ≤ String.length b)%nat →
  Str.drop_last n (a +:+ b) = a +:+ Str.drop_last n b.
Proof.
  intros Hn. unfold Str.drop_last.
  rewrite to_list_app, length_app, !length_to_list.
  rewrite take_app, length_to_list.
  rewrite take_ge by (rewrite length_to_list; lia).
  replace (String.length a + String.length b - n - String.length a)%nat
    with (String.length b - n)%nat by lia.
  by rewrite of_list_app, of_to_list.
Qed.

Lemma startswith_no_sep (s : string) : Str.sep ∉ Str.to_list s → Str.startswith_sep s = false.
Proof.
  destruct s as [| c s]; [done |]. cbn. intros Hc.
  destruct (Ascii.eqb_spec c Str.sep) as [-> |]; [| done].
  exfalso. apply Hc. left.
Qed.

Lemma endswith_no_sep (a b : string) :
  b ≠ "" → Str.sep ∉ Str.to_list b → Str.endswith_sep (a +:+ b) = false.
Proof.
  intros Hb Hs. unfold Str.endswith_sep. rewrite to_list_app, reverse_app.
  destruct (reverse (Str.to_list b)) as [| c l] eqn:E.
  - exfalso. apply Hb. rewrite <- (of_to_list b).
    apply (f_equal reverse) in E. rewrite reverse_involutive in E. by rewrite E.
  - cbn. destruct (Ascii.eqb_spec c Str.sep) as [-> |]; [| done].
    exfalso. apply Hs. rewrite <- elem_of_reverse, E. left.
Qed.

Lemma not_in_app (c : Ascii.ascii) (a b : string) :
  c ∉ Str.to_list a → c ∉ Str.to_list b → c ∉ Str.to_list (a +:+ b).
Proof. rewrite to_list_app, elem_of_app. tauto. Qed.

Lemma not_in_drop_last (c : Ascii.ascii) (n : nat) (s : string) :
  c ∉ Str.to_list s → c ∉ Str.to_list (Str.drop_last n s).
Proof.
  intros Hc. unfold Str.drop_last, Str.of_list, Str.to_list.
  rewrite String.list_ascii_of_string_of_list_ascii.
  intros (i & Hi & _)%elem_of_take. apply Hc. by eapply list_elem_of_lookup_2.
Qed.

Lemma split_first_app (c : Ascii.ascii) (a b : string) :
  c ∉ Str.to_list a → Str.split_first c (a +:+ String c b) = a.
Proof.
  intros Hc. unfold Str.split_first. rewrite to_list_app.
  change (Str.to_list (String c b)) with (c :: Str.to_list b).
  rewrite take_until_app by done. apply of_to_list.
Qed.

Lemma split_last_app (c : Ascii.ascii) (a b : string) :
  c ∉ Str.to_list b → Str.split_last c (a +:+ String c b) = b.
Proof.
  intros Hc. unfold Str.split_last. rewrite to_list_app.
  change (Str.to_list (String c b)) with (c :: Str.to_list b).
  rewrite reverse_app, reverse_cons, <- app_assoc. cbn [app].
  rewrite take_until_app by (by rewrite elem_of_reverse).
  rewrite reverse_involutive. apply of_to_list.
Qed.

Ltac no_char :=
  let Hin := fresh "Hin" in
  cbn; intros Hin;
  repeat (apply elem_of_cons in Hin as [Hin | Hin]; [discriminate Hin |]);
  by apply elem_of_nil in Hin.

Section PathFacts.

Context `{Cv2} `{Os}.

(** X10: for the image dir/stem+ext, with an extension of at least four
    characters, [get_page_filename] looks for dir/page/stem+e.xml, where e
    is the extension without its last four characters: nothing for .jpg,
    a dot for .jpeg.  It returns that path when a file or a directory has
    it, raises [FileNotFoundError] otherwise, and leaves the world as it
    is. *)
Theorem companion_of_image (dir stem ext : string) (w : world) :
  dir ≠ "" → Str.endswith_sep dir = false →
  Str.sep ∉ Str.to_list stem → Str.sep ∉ Str.to_list ext →
  (4 ≤ String.length ext)%nat →
  let page_filename := dir +:+ "/page/" +:+ stem +:+ Str.drop_last 4 ext +:+ ".xml" in
  get_page_filename (dir +:+ "/" +:+ stem +:+ ext) w
  = (if bool_decide (is_Some (files w !! page_filename)) || bool_decide (page_filename ∈ dirs w)
     then inr page_filename else inl FileNotFoundError, w).
Proof.
  intros Hd He Hstem Hext Hlen page_filename.
  unfold get_page_filename, os_path.dirname, os_path.basename.
  rewrite split_dir_base by (done || by apply not_in_app). cbn [fst snd].
  rewrite drop_last_app by exact Hlen.
  rewrite join_page; [| done | done |].
  - rewrite !append_assoc. fold page_filename.
    unfold os_path.exists_, mbind, M_bind.
    by destruct (_ || _).
  - apply startswith_no_sep. rewrite append_assoc.
    apply not_in_app; [done |]. apply not_in_app; [by apply not_in_drop_last |].
    no_char.
Qed.

(** X11: the output basename of parent/acronym_rest/stem.ext is acronym_stem:
    it depends neither on the parent folder, nor on what follows the first
    underscore of the folder name, nor on the extension, so two images
    that differ only there share their output files. *)
Theorem label_basename_of_image (parent acronym rest stem ext : string) :
  Str.sep ∉ Str.to_list acronym → "_"%char ∉ Str.to_list acronym →
  Str.sep ∉ Str.to_list rest →
  Str.sep ∉ Str.to_list stem → "."%char ∉ Str.to_list stem →
  Str.sep ∉ Str.to_list ext →
  get_image_label_basename
    (parent +:+ "/" +:+ acronym +:+ "_" +:+ rest +:+ "/" +:+ stem +:+ "." +:+ ext)
  = acronym +:+ "_" +:+ stem.
Proof.
  intros Ha Hau Hr Hs Hsd He.
  pose (folder := acronym +:+ "_" +:+ rest).
  pose (base := stem +:+ "." +:+ ext).
  assert (Hdot : Str.sep ∉ Str.to_list ".") by no_char.
  assert (Hund : Str.sep ∉ Str.to_list "_") by no_char.
  assert (Hfolder : Str.sep ∉ Str.to_list folder) by (by repeat apply not_in_app).
  assert (Hbase : Str.sep ∉ Str.to_list base) by (by repeat apply not_in_app).
  assert (Hne : folder ≠ "").
  { unfold folder. intros E. rewrite <- append_assoc in E.
    apply append_empty in E. by destruct acronym. }
  replace (parent +:+ "/" +:+ acronym +:+ "_" +:+ rest +:+ "/" +:+ stem +:+ "." +:+ ext)
    with ((parent +:+ "/" +:+ folder) +:+ "/" +:+ base)
    by (unfold folder, base; by rewrite !append_assoc).
  unfold get_image_label_basename.
  rewrite split_dir_base; [| | | exact Hbase].
  - f_equal; [| f_equal].
    + change (parent +:+ "/" +:+ folder) with (parent +:+ String Str.sep folder).
      rewrite split_last_app by exact Hfolder.
      unfold folder. change ("_" +:+ rest) with (String "_"%char rest).
      by apply split_first_app.
    + unfold base. change ("." +:+ ext) with (String "."%char ext).
      by apply split_first_app.
  - intros E. destruct parent; cbn in E; discriminate E.
  - rewrite <- append_assoc. by apply endswith_no_sep.
Qed.

End PathFacts.

Section GeneratorFacts.

Context `{Cv2} `{Os}.

Lemma save_and_resize_files (img : image) (filename : string) (size : option Z)
    (nearest : bool) (w w' : world) (u : unit) :
  save_and_resize img filename size nearest w = (inr u, w') →
  ∃ saved, files w' = <[filename := Image saved]> (files w)
           ∧ dirs w' = dirs w ∧ stdout w' = stdout w.
Proof.
  unfold save_and_resize, imsave, write_file, lift, raise, mbind, M_bind.
  destruct size as [size |]; [destruct (shape2 img) as [h wd] |];
    repeat case_match; intros; simplify_eq; eauto.
Qed.

Lemma annotate_one_page_result (image_filename output_dir : string) (size : option Z)
    (b l e : bool) (bt : float) (d : Z) (w w' : world) (paths : string * string) :
  annotate_one_page image_filename output_dir size b l e bt d w = (inr paths, w') →
  let name := get_image_label_basename image_filename in
  paths = (abspath (os_path.join output_dir ["images"; name +:+ ".jpg"]),
           abspath (os_path.join output_dir ["labels"; name +:+ ".png"])).
Proof.
  unfold annotate_one_page, mbind, M_bind, mret, M_ret.
  repeat match goal with
         | |- context [match ?m with (s, w') => _ end] =>
             destruct m as [[?e | ?a] ?w]; [discriminate |]
         end.
  by intros [= <- <-].
Qed.

Lemma annotate_all_result (image_filenames_list : list string) (output_dir : string)
    (img_size : option Z) (b l : bool) (lt : float) (e : bool) (ct : Z)
    (acc tuples : list (string * string)) (w w' : world) :
  annotate_all image_filenames_list output_dir img_size b l lt e ct acc w = (inr tuples, w') →
  tuples = acc ++ ((λ f, let name := get_image_label_basename f in
                         (abspath (os_path.join output_dir ["images"; name +:+ ".jpg"]),
                          abspath (os_path.join output_dir ["labels"; name +:+ ".png"])))
                     <$> image_filenames_list).
Proof.
  revert acc w. induction image_filenames_list as [| f fs IH]; intros acc w.
  - intros [= <- <-]. by rewrite app_nil_r.
  - cbn [annotate_all fmap list_fmap]. unfold mbind, M_bind.
    destruct (annotate_one_page f output_dir img_size b l e lt ct w) as [[ex | paths] w1] eqn:E1;
      [discriminate |].
    apply annotate_one_page_result in E1. cbv zeta in E1. subst paths.
    intros E2%IH. rewrite E2, <- app_assoc. reflexivity.
Qed.

Lemma join_file_ne (output_dir a b : string) :
  Str.startswith_sep a = false → Str.startswith_sep b = false → a ≠ b →
  os_path.join output_dir [a] ≠ os_path.join output_dir [b].
Proof.
  intros Ha Hb Hne. unfold os_path.join. cbn [foldl]. rewrite Ha, Hb.
  destruct (_ || _); intros E.
  - by apply String.app_inj in E.
  - apply String.app_inj in E. by apply String.app_inj in E.
Qed.

(** X12: when [cbad_set_generator] returns, set_data.csv holds one row per
    image that glob listed, in that order, the row being the absolute
    paths of the image and label files derived from the name of the image;
    classes.txt holds the class table of the flags. *)
Theorem generator_writes_manifest_and_classes (input_dir output_dir : string)
    (img_size : option Z) (multilabel draw_baselines draw_lines : bool)
    (line_thickness : float) (draw_endpoints : bool) (circle_thickness : Z)
    (w w' : world) :
  cbad_set_generator input_dir output_dir img_size multilabel draw_baselines draw_lines
                     line_thickness draw_endpoints circle_thickness w = (inr (), w') →
  files w' !! os_path.join output_dir ["set_data.csv"]
  = Some (Csv ((λ f, let name := get_image_label_basename f in
                     [abspath (os_path.join output_dir ["images"; name +:+ ".jpg"]);
                      abspath (os_path.join output_dir ["labels"; name +:+ ".png"])])
                 <$> glob (input_dir +:+ "/**/*.jp*g") w))
  ∧ files w' !! os_path.join output_dir ["classes.txt"]
    = Some (Text (final_classes multilabel
                    (classes draw_baselines draw_lines draw_endpoints))).
Proof.
  assert (Hne : os_path.join output_dir ["set_data.csv"]
                ≠ os_path.join output_dir ["classes.txt"]) by (by apply join_file_ne).
  unfold cbad_set_generator.
  revert Hne.
  generalize (os_path.join output_dir ["set_data.csv"]) as manifest_path.
  generalize (os_path.join output_dir ["classes.txt"]) as classes_path.
  intros classes_path manifest_path Hne.
  unfold mbind at 1, M_bind at 1.
  set (l := glob (input_dir +:+ "/**/*.jp*g") w).
  unfold mbind, M_bind.
  destruct (os.makedirs (os_path.join output_dir ["images"]) w) as [[? | []] wa]; [discriminate |].
  destruct (os.makedirs (os_path.join output_dir ["labels"]) wa) as [[? | []] wb]; [discriminate |].
  destruct (os.makedirs (os_path.join output_dir ["gt"]) wb) as [[? | []] wc]; [discriminate |].
  destruct (annotate_all l _ _ _ _ _ _ _ [] wc) as [[? | tuples] wd] eqn:E; [discriminate |].
  apply annotate_all_result in E. cbn [app] in E. subst tuples.
  unfold np_savetxt, write_file. cbn [files]. intros [= <-]. cbn [files]. split.
  - rewrite lookup_insert_eq. f_equal. f_equal.
    rewrite <- list_fmap_compose. reflexivity.
  - by rewrite lookup_insert_ne, lookup_insert_eq.
Qed.

(** X13: when one of the folders images, labels, gt of the output directory
    exists already, [cbad_set_generator] raises [FileExistsError] before
    any image is processed: no file is written and nothing is printed. *)
Theorem generator_refuses_existing_output (input_dir output_dir : string)
    (img_size : option Z) (multilabel draw_baselines draw_lines : bool)
    (line_thickness : float) (draw_endpoints : bool) (circle_thickness : Z)
    (w : world) (folder : string) :
  folder ∈ ["images"; "labels"; "gt"] →
  os_path.join output_dir [folder] ∈ dirs w →
  ∃ w', cbad_set_generator input_dir output_dir img_size multilabel draw_baselines draw_lines
                           line_thickness draw_endpoints circle_thickness w
        = (inl FileExistsError, w')
        ∧ files w' = files w ∧ stdout w' = stdout w.
Proof.
  intros Hf Hin. unfold cbad_set_generator. unfold mbind, M_bind.
  unfold os.makedirs.
  assert (Hk : ∀ d (s : gset string) , os_path.join output_dir [folder] ∈ s →
               os_path.join output_dir [folder] ∈ {[d]} ∪ s)
    by (intros d s Hi; apply elem_of_union; by right).
  apply elem_of_cons in Hf as [-> | Hf].
  { rewrite (bool_decide_eq_true_2 _ Hin), orb_true_r. eauto. }
  destruct (_ || _); [eauto |]. cbn [files dirs stdout].
  apply elem_of_cons in Hf as [-> | Hf].
  { rewrite (bool_decide_eq_true_2 (_ ∈ _ ∪ _)) by (by apply Hk).
    rewrite orb_true_r. eauto. }
  destruct (_ || _); [eauto |]. cbn [files dirs stdout].
  apply elem_of_cons in Hf as [-> | Hf]; [| by apply elem_of_nil in Hf].
  rewrite (bool_decide_eq_true_2 (_ ∈ _ ∪ _)) by (by apply Hk, Hk).
  rewrite orb_true_r. eauto.
Qed.

End GeneratorFacts.

Section FrameFacts.

Context `{Cv2} `{Os}.

Lemma draw_endpoints_of_line_storage (tl : PAGE.TextLine) (d : Z) (b : buffer) (w : world) :
  same_storage w (draw_endpoints_of_line tl d b w).2.
Proof.
  unfold draw_endpoints_of_line, attempt, draw_first_endpoint, draw_last_endpoint,
    getitem_first, getitem_last, print, raise, lift, mbind, M_bind, mret, M_ret, same_storage.
  repeat case_match; simplify_eq; done.
Qed.

Lemma draw_endpoints_loop_storage (tls : list PAGE.TextLine) (d : Z) (b : buffer) (w : world) :
  same_storage w (draw_endpoints_loop tls d b w).2.
Proof.
  revert b w. induction tls as [| tl tls IH]; intros b w; [done |].
  cbn [draw_endpoints_loop]. unfold mbind, M_bind.
  pose proof (draw_endpoints_of_line_storage tl d b w) as [Hf Hd].
  destruct (draw_endpoints_of_line tl d b w) as [[e | b1] w1]; cbn [snd] in *; [done |].
  destruct (IH b1 w1) as [Hf' Hd']. split; congruence.
Qed.

Lemma draw_baselines_block_world (page : PAGE.Page) (tls : list PAGE.TextLine)
    (img g : image) (bt : float) (w : world) :
  (draw_baselines_block page tls img g bt w).2 = w.
Proof.
  unfold draw_baselines_block.
  destruct (_compute_statistics_line_height page) as [[mean ?] ?].
  unfold mbind, M_bind, lift. by destruct (absolute_baseline_thickness g bt mean).
Qed.

Lemma label_mask_storage (page : PAGE.Page) (img : image) (bl ln ep : bool) (bt : float)
    (d : Z) (w : world) :
  same_storage w (label_mask page img bl ln ep bt d w).2.
Proof.
  unfold label_mask. case_bool_decide; [done |].
  set (tls := tr ← PAGE.text_regions page; PAGE.text_lines tr).
  unfold mbind at 1 2 3, M_bind at 1 2 3.
  assert (E1 : ((if bl then draw_baselines_block page tls img (zeros_like img) bt
                 else mret (zeros_like img)) w).2 = w).
  { destruct bl; [apply draw_baselines_block_world | done]. }
  destruct ((if bl then draw_baselines_block page tls img (zeros_like img) bt
             else mret (zeros_like img)) w) as [[e1 | g1] w1]; cbn [snd] in E1; subst w1;
    [done |].
  assert (E2 : ((if ln then draw_lines_block tls img g1 else mret g1) w).2 = w)
    by (by destruct ln).
  destruct ((if ln then draw_lines_block tls img g1 else mret g1) w) as [[e2 | g2] w2];
    cbn [snd] in E2; subst w2; [done |].
  assert (E3 : same_storage w ((if ep then draw_endpoints_block tls img g2 d
                                else mret g2) w).2).
  { destruct ep; [| done]. unfold draw_endpoints_block, mbind, M_bind.
    pose proof (draw_endpoints_loop_storage tls d (zeros_like_buffer (channel 0 img)) w) as Hs.
    by destruct (draw_endpoints_loop tls d _ w) as [[e3 | b3] w3]. }
  by destruct ((if ep then draw_endpoints_block tls img g2 d else mret g2) w)
    as [[e3 | g3] w3].
Qed.

(** X14: a successful [annotate_one_page] changes three files and nothing
    else: the image and the label under the output basename, then a copy
    of the layout file as it stands after those two writes; no file is
    removed and no directory is created. *)
Theorem annotate_one_page_writes_three_files (image_filename output_dir : string)
    (size : option Z) (bl ln ep : bool) (bt : float) (d : Z) (w w' : world)
    (paths : string * string) :
  annotate_one_page image_filename output_dir size bl ln ep bt d w = (inr paths, w') →
  let name := get_image_label_basename image_filename in
  ∃ (page_filename : string) (layout : file) (saved_image saved_label : image),
    get_page_filename image_filename w = (inr page_filename, w)
    ∧ let written :=
        <[os_path.join output_dir ["labels"; name +:+ ".png"] := Image saved_label]>
          (<[os_path.join output_dir ["images"; name +:+ ".jpg"] := Image saved_image]>
             (files w)) in
      written !! page_filename = Some layout
      ∧ files w' = <[os_path.join output_dir ["gt"; name +:+ ".xml"] := layout]> written
      ∧ dirs w' = dirs w.
Proof.
  intros E. cbv zeta. revert E. unfold annotate_one_page. cbv zeta.
  unfold mbind at 1, M_bind at 1.
  pose proof (get_page_filename_world image_filename w) as Hw.
  destruct (get_page_filename image_filename w) as [[? | page_filename] w0];
    [discriminate |]. cbn [snd] in Hw. subst w0.
  unfold mbind at 1, M_bind at 1.
  assert (Hparse : (PAGE_parse_file page_filename w).2 = w).
  { unfold PAGE_parse_file, read_file, raise, mbind, M_bind, mret, M_ret.
    repeat case_match; simplify_eq; done. }
  destruct (PAGE_parse_file page_filename w) as [[? | page] w0]; [discriminate |].
  cbn [snd] in Hparse. subst w0.
  unfold mbind at 1, M_bind at 1.
  assert (Hread : (imread image_filename w).2 = w).
  { unfold imread, read_file, raise, mbind, M_bind, mret, M_ret.
    repeat case_match; simplify_eq; done. }
  destruct (imread image_filename w) as [[? | img] w0]; [discriminate |].
  cbn [snd] in Hread. subst w0.
  unfold mbind at 1, M_bind at 1.
  pose proof (label_mask_storage page img bl ln ep bt d w) as [Hf1 Hd1].
  destruct (label_mask page img bl ln ep bt d w) as [[? | gt] w1]; [discriminate |].
  cbn [snd] in Hf1, Hd1.
  unfold mbind at 1, M_bind at 1.
  destruct (save_and_resize img _ size false w1) as [[? | []] w2] eqn:E2; [discriminate |].
  apply save_and_resize_files in E2 as (saved_image & Hf2 & Hd2 & _).
  unfold mbind at 1, M_bind at 1.
  destruct (save_and_resize gt _ size true w2) as [[? | []] w3] eqn:E3; [discriminate |].
  apply save_and_resize_files in E3 as (saved_label & Hf3 & Hd3 & _).
  unfold shutil_copy, read_file, write_file, mbind, M_bind, mret, M_ret.
  destruct (files w3 !! page_filename) as [layout |] eqn:E4; [| discriminate].
  intros [= <- <-]. cbn [files dirs].
  exists page_filename, layout, saved_image, saved_label.
  split; [done |]. rewrite Hf3, Hf2, Hf1 in *. split; [exact E4 |]. split; [done | congruence].
Qed.

End FrameFacts.

(** ** SplitSampler, continued *)

Lemma StronglySorted_seq (j n : nat) : StronglySorted le (seq j n).
Proof.
  revert j. induction n as [| n IH]; intros j; cbn; constructor; [apply IH |].
  apply Forall_forall. intros i Hi%elem_of_seq. lia.
Qed.

Lemma StronglySorted_filter {A} (R : relation A) (P : A → Prop) `{∀ x, Decision (P x)}
    (l : list A) :
  StronglySorted R l → StronglySorted R (filter P l).
Proof.
  induction 1 as [| a l Hs IH Ha]; [constructor |].
  rewrite filter_cons. destruct (decide (P a)); [| done].
  constructor; [done |].
  apply Forall_forall. intros x [_ Hx]%list_elem_of_filter.
  rewrite Forall_forall in Ha. by apply Ha.
Qed.

Lemma omap_lookup_filter_seq {A} (rows : list A) (P : nat → Prop) `{∀ i, Decision (P i)} :
  omap (λ i, zip (seq 0 (length rows)) rows !! i) (filter P (seq 0 (length rows)))
  = filter (λ r : nat * A, P r.1) (zip (seq 0 (length rows)) rows).
Proof.
  induction rows as [| row rows IH] using rev_ind; [reflexivity |].
  rewrite length_app, Nat.add_1_r, seq_S. cbn [Nat.add].
  rewrite zip_with_app by (by rewrite length_seq).
  rewrite !filter_app, omap_app. f_equal.
  - rewrite <- IH. apply list_omap_ext, Forall_Forall2_diag, Forall_forall.
    intros i [_ Hi%elem_of_seq]%list_elem_of_filter.
    apply lookup_app_l. rewrite length_zip, length_seq. lia.
  - cbn [zip_with]. rewrite !filter_cons, !filter_nil. cbn [fst].
    destruct (decide (P (length rows))); [| done].
    cbn [omap list_omap]. rewrite lookup_app_r by (rewrite length_zip, length_seq; lia).
    rewrite length_zip, length_seq, Nat.min_id, Nat.sub_diag. reflexivity.
Qed.

Section SplitOrder.

Context `{PandasLaws}.

(** X15: the training frame is the manifest with the sampled rows filtered
    out: its rows keep the order they have in the manifest. *)
Theorem training_frame_keeps_manifest_order (rows : list (list string)) :
  let df_data := zip (seq 0 (length rows)) rows in
  let df_eval := (split_frames df_data).1 in
  let df_train := (split_frames df_data).2 in
  df_train = filter (λ r, r.1 ∉ index df_eval) df_data
  ∧ df_train.*2 `sublist_of` rows.
Proof.
  intros df_data df_eval df_train.
  destruct (split_frames_lookup rows) as (Hsplit & Heval & _ & _).
  fold df_data in Hsplit, Heval.
  set (locs := sample_locs 0.15 42 (length rows)) in *.
  assert (Hidx : merge_sort le (filter (λ i, i ∉ locs) (seq 0 (length rows)))
                 = filter (λ i, i ∉ locs) (seq 0 (length rows))).
  { apply (StronglySorted_unique le).
    - apply StronglySorted_merge_sort; apply _.
    - apply StronglySorted_filter, StronglySorted_seq.
    - apply merge_sort_Permutation. }
  assert (Et : df_train = filter (λ r, r.1 ∉ index df_eval) df_data).
  { unfold df_train, df_eval. rewrite Hsplit. cbn [fst snd].
    rewrite Heval, Hidx. unfold df_data.
    exact (omap_lookup_filter_seq rows (λ i, i ∉ locs)). }
  split; [exact Et |].
  rewrite Et.
  assert (Hrows : rows = df_data.*2)
    by (unfold df_data; rewrite snd_zip; [done | rewrite length_seq; lia]).
  pose proof (fmap_sublist snd _ _
                (sublist_filter (λ r : nat * list string, r.1 ∉ index df_eval) df_data)) as S.
  by rewrite <- Hrows in S.
Qed.

End SplitOrder.

(** ** Runs of the further properties *)

Section FurtherRuns.

Import Sim.

Lemma endpoints_of_empty_baseline_witness :
  draw_endpoints_loop [line [] [(0, 0); (2, 2)]; one_point_line] 20 small_buffer (world_of [])
  = (inr [[0; 0; 0]; [0; 255; 0]; [0; 0; 0]],
     World ∅ ∅ ["Length of baseline is 0"]).
Proof.
  rewrite (endpoints_of_empty_baseline (line [] [(0, 0); (2, 2)]) [one_point_line] 20
             small_buffer (world_of []) eq_refl).
  vm_compute. reflexivity.
Defined.

Lemma endpoints_at_first_and_last_point_witness :
  draw_endpoints_loop [two_point_line] 20 small_buffer (world_of [])
  = (inr [[0; 0; 0]; [0; 0; 0]; [255; 0; 255]], world_of []).
Proof.
  rewrite (endpoints_at_first_and_last_point two_point_line (point 0 2) (point 2 2) [] 20 0
             small_buffer (world_of [])); [| reflexivity | reflexivity | vm_compute; reflexivity].
  vm_compute. reflexivity.
Defined.

Lemma blocks_write_their_own_channel_witness :
  let tls := PAGE.text_regions two_line_page ≫= PAGE.text_lines in
  let gt := zeros_like (blank 4 6) in
  ∃ gt', draw_lines_block tls (blank 4 6) gt (world_of []) = (inr gt', world_of [])
         ∧ channel 0 gt' = channel 0 gt ∧ channel 2 gt' = channel 2 gt.
Proof.
  intros tls gt. eexists. split; [reflexivity |].
  apply (proj1 (proj2 (blocks_write_their_own_channel two_line_page tls (blank 4 6) gt _
                         0.2 20 (world_of []) (world_of []) (zeros_like_shape _)))).
  reflexivity.
Defined.

Lemma label_mask_keeps_shape_witness :
  ∃ gt w', label_mask two_line_page (blank 4 6) true true true 0.2 20 (world_of [])
           = (inr gt, w')
           ∧ shape gt = shape (blank 4 6).
Proof.
  eexists _, _. split; [vm_compute; reflexivity |].
  eapply (label_mask_keeps_shape two_line_page (blank 4 6) _ true true true 0.2 20
            (world_of [])).
  vm_compute. reflexivity.
Defined.

Lemma thickness_without_outlines_witness :
  absolute_baseline_thickness (zeros_like (blank 1100 1)) 0.2
    (_compute_statistics_line_height (page [line [(0, 0); (5, 0)] []])).1.1
  = inr 2.
Proof.
  rewrite (proj2 (thickness_without_outlines (page [line [(0, 0); (5, 0)] []])
                    (zeros_like (blank 1100 1)) 0.2 eq_refl)).
  vm_compute. reflexivity.
Defined.

Lemma companion_of_image_witness :
  get_page_filename "in/A_x/p4.jpeg" archive = (inl FileNotFoundError, archive)
  ∧ get_page_filename "in/A_x/p3.jpg" archive = (inr "in/A_x/page/p3.xml", archive).
Proof.
  split.
  - etrans; [apply (companion_of_image "in/A_x" "p4" ".jpeg" archive);
             try done; try no_char; cbn; lia |].
    vm_compute. reflexivity.
  - etrans; [apply (companion_of_image "in/A_x" "p3" ".jpg" archive);
             try done; try no_char; cbn; lia |].
    vm_compute. reflexivity.
Defined.

Lemma label_basename_of_image_witness :
  get_image_label_basename "in/A_x/p3.jpg" = "A_p3"
  ∧ get_image_label_basename "other/A_y/p3.jpeg" = "A_p3".
Proof.
  split.
  - apply (label_basename_of_image "in" "A" "x" "p3" "jpg"); no_char.
  - apply (label_basename_of_image "other" "A" "y" "p3" "jpeg"); no_char.
Defined.

Lemma generator_writes_manifest_and_classes_witness :
  files (generate library).2 !! "out/set_data.csv"
  = Some (Csv [["/cwd/out/images/A_p3.jpg"; "/cwd/out/labels/A_p3.png"];
               ["/cwd/out/images/A_p2.jpg"; "/cwd/out/labels/A_p2.png"]])
  ∧ files (generate library).2 !! "out/classes.txt"
    = Some (Text [[0; 0; 0]; [255; 0; 0]; [0; 0; 255]; [255; 0; 255]]).
Proof.
  assert (E : generate library = (inr (), (generate library).2))
    by (vm_compute; reflexivity).
  destruct (generator_writes_manifest_and_classes _ _ _ _ _ _ _ _ _ _ _ E) as [Hm Hc].
  split.
  - etrans; [exact Hm |]. vm_compute. reflexivity.
  - etrans; [exact Hc |]. vm_compute. reflexivity.
Defined.

Lemma generator_refuses_existing_output_witness :
  ∃ w', generate (World (files library) {["out/labels"]} []) = (inl FileExistsError, w')
        ∧ files w' = files library ∧ stdout w' = [].
Proof.
  apply (generator_refuses_existing_output "in" "out" (Some 24) false true false 0.2 true 20
           (World (files library) {["out/labels"]} []) "labels").
  - apply elem_of_cons. right. left.
  - vm_compute. reflexivity.
Defined.

Lemma annotate_one_page_writes_three_files_witness :
  ∃ (page_filename : string) (layout : file) (saved_image saved_label : image),
    get_page_filename "in/A_x/p2.jpg" library = (inr page_filename, library)
    ∧ layout = Xml (page [])
    ∧ files (annotate_one_page "in/A_x/p2.jpg" "out" None true true true 0.2 20 library).2
      = <["out/gt/A_p2.xml" := layout]>
          (<["out/labels/A_p2.png" := Image saved_label]>
             (<["out/images/A_p2.jpg" := Image saved_image]> (files library))).
Proof.
  assert (E : annotate_one_page "in/A_x/p2.jpg" "out" None true true true 0.2 20 library
              = (inr ("/cwd/out/images/A_p2.jpg", "/cwd/out/labels/A_p2.png"),
                 (annotate_one_page "in/A_x/p2.jpg" "out" None true true true 0.2 20
                    library).2))
    by (vm_compute; reflexivity).
  destruct (annotate_one_page_writes_three_files _ _ _ _ _ _ _ _ _ _ _ E)
    as (page_filename & layout & saved_image & saved_label & Hp & Hl & Hf & _).
  exists page_filename, layout, saved_image, saved_label.
  split; [exact Hp |]. split; [| exact Hf].
  assert (page_filename = "in/A_x/page/p2.xml") as ->
    by (vm_compute in Hp; congruence).
  vm_compute in Hl. injection Hl as <-. reflexivity.
Defined.

Lemma training_frame_keeps_manifest_order_witness :
  (split_frames (zip (seq 0 10) manifest)).2.*2 `sublist_of` manifest.
Proof.
  exact (proj2 (training_frame_keeps_manifest_order (H0 := Sim_pandas_laws) manifest)).
Defined.

End FurtherRuns.
